(** * LoveBot: the message pipeline of bluzername/lovebot, embedded in Rocq

    The development follows the Python sources file by file:

    - [Py]              the builtin string operations the sources call
                        ([str.startswith], slicing, [str.strip],
                        [str.split(' ')], [str.lower]);
    - [Models]          [models/message.py];
    - [Runtime]         the effects of a coroutine: exceptions, the logger,
                        the Mongo collection, the calls to collaborators;
    - [MessageDatabase] [data/database.py];
    - [WhatsAppIntegration] [integrations/whatsapp.py];
    - [CommandHandler]  [services/command_handler.py];
    - [AIProcessor]     [services/ai_processor.py];
    - [LoveBot]         [app.py].

    Python [float] is IEEE 754 binary64, which is Rocq's primitive [float];
    [dict] is stdpp's [gmap]; [str] is [string], restricted to the code
    points below 256. *)

From Stdlib Require Import ZArith Floats String Ascii.
From stdpp Require Import gmap strings list sorting.

#[local] Set Warnings "-inexact-float".
#[local] Open Scope string_scope.
#[local] Open Scope list_scope.

(** ** Python builtins on [str] *)

Module Py.

(** [str.isspace] on one character (code points below 256): the ASCII
    controls TAB, LF, VT, FF, CR, the separators FS, GS, RS, US, the space,
    NEL (0x85) and the no-break space (0xA0). *)
Definition isspace (c : ascii) : bool :=
  let n := N_of_ascii c in
  ((9 <=? n) && (n <=? 13) || (28 <=? n) && (n <=? 32)
   || (n =? 133) || (n =? 160))%N.

(** [s.startswith(p)] *)
Fixpoint startswith (p s : string) : bool :=
  match p, s with
  | EmptyString, _ => true
  | String _ _, EmptyString => false
  | String a p', String b s' => if Ascii.eqb a b then startswith p' s' else false
  end.

(** [s[n:]] for [n >= 0] *)
Fixpoint slice_from (n : nat) (s : string) : string :=
  match n, s with
  | O, _ => s
  | S _, EmptyString => EmptyString
  | S n', String _ s' => slice_from n' s'
  end.

(** [s.lstrip()] *)
Fixpoint lstrip (s : string) : string :=
  match s with
  | EmptyString => EmptyString
  | String c s' => if isspace c then lstrip s' else s
  end.

(** [s.rstrip()] *)
Fixpoint rstrip (s : string) : string :=
  match s with
  | EmptyString => EmptyString
  | String c s' =>
      match rstrip s' with
      | EmptyString => if isspace c then EmptyString else String c EmptyString
      | r => String c r
      end
  end.

(** [s.strip()] *)
Definition strip (s : string) : string := rstrip (lstrip s).

(** [s.split(sep)] for a one-character separator: every occurrence of the
    separator cuts, empty fields are kept, and the result is never empty
    (['' .split(' ')] is [['']]). *)
Fixpoint split (sep : ascii) (s : string) : list string :=
  match s with
  | EmptyString => [EmptyString]
  | String c s' =>
      if Ascii.eqb c sep then EmptyString :: split sep s'
      else match split sep s' with
           | [] => [String c EmptyString]
           | f :: fs => String c f :: fs
           end
  end.

(** [str.lower] on one character: A-Z, and the Latin-1 capitals
    0xC0-0xDE except the multiplication sign 0xD7, move up by 32. *)
Definition lower_char (c : ascii) : ascii :=
  let n := N_of_ascii c in
  if ((65 <=? n) && (n <=? 90)
      || (192 <=? n) && (n <=? 222) && negb (n =? 215))%N
  then ascii_of_N (n + 32) else c.

(** [s.lower()] *)
Fixpoint lower (s : string) : string :=
  match s with
  | EmptyString => EmptyString
  | String c s' => String (lower_char c) (lower s')
  end.

(** [sep.join(l)] (used to state what [split] computes) *)
Fixpoint join (sep : string) (l : list string) : string :=
  match l with
  | [] => EmptyString
  | [x] => x
  | x :: l' => x +:+ sep +:+ join sep l'
  end.

(** [l[1:] if len(l) > 1 else []] *)
Definition tail_args (parts : list string) : list string :=
  if decide (1 < length parts) then drop 1 parts else [].

End Py.

(** ** models/message.py *)

Module Models.

(** [datetime] values are instants; an instant is its number of
    milliseconds since the epoch. *)
Record Message := mkMessage {
  sender : string;
  group : string;
  content : string;
  timestamp : Z;
  message_id : option string
}.

Record NLPResult := mkNLPResult {
  entities : list (gmap string string);
  intent : string;
  topics : list string;
  tokens : list string
}.

(** A plain dataclass: the five fields are independent, nothing relates
    the three booleans to [score]. *)
Record SentimentResult := mkSentimentResult {
  score : float;
  magnitude : float;
  is_positive : bool;
  is_negative : bool;
  is_neutral : bool
}.

Record ProcessedMessage := mkProcessedMessage {
  original_message : Message;
  nlp_result : NLPResult;
  sentiment : SentimentResult;
  relevant_context : list Message
}.

End Models.
Import Models.

(** ** Effects of a coroutine body *)

Module Runtime.

(** A raised instance of a subclass of [Exception]: the class name and
    [str(e)]. *)
Inductive exn := Exn (cls : string) (msg : string).

Definition exn_str (e : exn) : string := let 'Exn _ msg := e in msg.

Definition KeyError (key : string) : exn := Exn "KeyError" ("'" +:+ key +:+ "'").
Definition NameError (name : string) : exn :=
  Exn "NameError" ("name '" +:+ name +:+ "' is not defined").

Inductive level := DEBUG | INFO | ERROR.

(** The record [store_message] writes to the [messages] collection. *)
Record document := mkDocument {
  user_id : string;
  group_id : string;
  doc_content : string;
  doc_timestamp : Z
}.

(** What a coroutine asks of the objects around it, in the order asked. *)
Inductive event :=
| InsertOne (d : document)
| Find (g : string) (limit : Z)
| Handler (name : string) (args : list string) (m : Message)
| NlpAnalyze (text : string)
| SentimentAnalyze (text : string)
| UpdateContext (m : Message) (n : NLPResult) (s : SentimentResult)
| GetRelevantContext (n : NLPResult)
| MessagesCreate (from_ body to : string)
| Log (l : level) (text : string).

(** The mutable state: the Mongo collection [db.messages], in insertion
    order, and the calls made so far. *)
Record world := mkWorld {
  messages : list document;
  trace : list event
}.

Inductive outcome (A : Type) :=
| Ok (a : A)
| Raised (e : exn).
Arguments Ok {A} a.
Arguments Raised {A} e.

(** A coroutine body: it runs on a [world], and returns or raises. *)
Definition M (A : Type) : Type := world -> outcome A * world.

Definition ret {A} (a : A) : M A := fun w => (Ok a, w).

Definition raise {A} (e : exn) : M A := fun w => (Raised e, w).

Definition bind {A B} (c : M A) (k : A -> M B) : M B :=
  fun w => match c w with
           | (Ok a, w') => k a w'
           | (Raised e, w') => (Raised e, w')
           end.

(** [try: c  except Exception as e: h e] *)
Definition try_except {A} (c : M A) (h : exn -> M A) : M A :=
  fun w => match c w with
           | (Ok a, w') => (Ok a, w')
           | (Raised e, w') => h e w'
           end.

Definition emit (ev : event) : M unit :=
  fun w => (Ok tt, mkWorld (messages w) (trace w ++ [ev])).

Definition lift {A} (o : outcome A) : M A := fun w => (o, w).

(** The calls made so far. *)
Definition calls : M (list event) := fun w => (Ok (trace w), w).

(** What the sources leave to their surroundings. [ai_processor.py]
    imports [NLPService], [SentimentAnalyzer] and [ContextManager] from
    modules that are not part of the repository; Mongo and Twilio are
    services. Each is taken as it answers one call; the context manager,
    which keeps state, answers from the calls made so far. *)
Record env := mkEnv {
  (** the name [datetime] in the globals of [app.py]: [None] when it is
      unbound (the file as it stands has no import for it), [Some t] when
      it is bound and [datetime.now()] is the instant [t] *)
  datetime_now : option Z;
  (** [Some e]: [insert_one] raises [e] *)
  insert_fault : option exn;
  (** [Some e]: iterating the cursor of [find] raises [e] *)
  find_fault : option exn;
  (** [config['phone_number']], that is [os.getenv('WHATSAPP_PHONE_NUMBER')] *)
  phone_number : option string;
  (** [client.messages.create(from_, body, to)]: the [sid] or an exception *)
  messages_create : string -> string -> string -> outcome string;
  nlp_analyze : string -> outcome NLPResult;
  sentiment_analyze : string -> outcome SentimentResult;
  update_context :
    list event -> Message -> NLPResult -> SentimentResult -> outcome unit;
  get_relevant_context : list event -> NLPResult -> outcome (list Message)
}.

(** [str(x)] inside an f-string, for a value that may be [None] *)
Definition str_opt (o : option string) : string := default "None" o.

End Runtime.
Import Runtime.

Notation "'let*' x ':=' c 'in' k" := (bind c (fun x => k))
  (at level 10, x name, c at level 100, k at level 200, only parsing).
Notation "'run' c 'in' k" := (bind c (fun _ => k))
  (at level 10, c at level 100, k at level 200, only parsing).

(** ** data/database.py *)

Module MessageDatabase.

(** [collection.insert_one(d)] *)
Definition insert_one (e : env) (d : document) : M unit :=
  run emit (InsertOne d) in
  match insert_fault e with
  | Some x => raise x
  | None => fun w => (Ok tt, mkWorld (messages w ++ [d]) (trace w))
  end.

(** [find({'group_id': g})]: the documents whose [group_id] is [g]. *)
Definition find_group (g : string) (c : list document) : list document :=
  filter (fun d => group_id d = g) c.

(** The order of [sort('timestamp', -1)]: newer first. *)
Definition newer_first (d1 d2 : document) : Prop :=
  (doc_timestamp d2 <= doc_timestamp d1)%Z.

#[global] Instance newer_first_dec : RelDecision newer_first.
Proof. intros d1 d2. unfold newer_first. apply _. Defined.

(** [.sort('timestamp', -1)] *)
Definition sort_newer_first (c : list document) : list document :=
  merge_sort newer_first c.

(** [.limit(n)] of a Mongo cursor. The driver documents that a limit of
    0 is equivalent to no limit; a negative limit asks for a single batch
    of at most its absolute value, taken here as that many. *)
Definition cursor_limit (n : Z) (c : list document) : list document :=
  if (n =? 0)%Z then c else take (Z.to_nat (Z.abs n)) c.

(** The [Message] built from a document in the loop of
    [get_conversation_history]; [message_id] keeps its default [None]. *)
Definition message_of_document (d : document) : Message :=
  mkMessage (user_id d) (group_id d) (doc_content d) (doc_timestamp d) None.

(** The dict literal of [store_message]. *)
Definition document_of_message (m : Message) : document :=
  mkDocument (sender m) (group m) (content m) (timestamp m).

Definition store_message (e : env) (m : Message) : M unit :=
  insert_one e (document_of_message m).

Definition get_conversation_history (e : env) (g : string) (limit : Z)
  : M (list Message) :=
  run emit (Find g limit) in
  match find_fault e with
  | Some x => raise x
  | None =>
      fun w =>
        let cursor := cursor_limit limit (sort_newer_first (find_group g (messages w))) in
        (Ok (message_of_document <$> cursor), w)
  end.

End MessageDatabase.

(** ** integrations/whatsapp.py *)

Module WhatsAppIntegration.

(** [self.client.messages.create(from_=..., body=..., to=...)] *)
Definition create (e : env) (from_ body to : string) : M string :=
  run emit (MessagesCreate from_ body to) in
  lift (messages_create e from_ body to).

Definition send_message (e : env) (recipient message : string)
  : M (gmap string string) :=
  try_except
    (let* sid := create e ("whatsapp:" +:+ str_opt (phone_number e)) message
                          ("whatsapp:" +:+ recipient) in
     run emit (Log DEBUG ("Sent message to " +:+ recipient +:+ ": " +:+ sid)) in
     ret (<["message_id" := sid]> {["status" := "success"]}))
    (fun x =>
       run emit (Log ERROR ("Failed to send message: " +:+ exn_str x)) in
       ret (<["error" := exn_str x]> {["status" := "error"]})).

Definition send_private_message (e : env) (user message : string)
  : M (gmap string string) :=
  send_message e user message.

End WhatsAppIntegration.

(** ** services/command_handler.py *)

Module CommandHandler.

Definition handler : Type := list string -> Message -> M unit.

(** The five handlers. Their bodies are [pass] (the help handler binds a
    local string and drops it): entering one is all that can be observed,
    and no handler touches any state. *)
Definition handle_help_command : handler :=
  fun args m => emit (Handler "help" args m).
Definition handle_pause_command : handler :=
  fun args m => emit (Handler "pause" args m).
Definition handle_resume_command : handler :=
  fun args m => emit (Handler "resume" args m).
Definition handle_settings_command : handler :=
  fun args m => emit (Handler "settings" args m).
Definition handle_feedback_command : handler :=
  fun args m => emit (Handler "feedback" args m).

(** [self.commands] after [register_default_commands], the five
    assignments in their order. *)
Definition register_default_commands : gmap string handler :=
  <["feedback" := handle_feedback_command]>
  (<["settings" := handle_settings_command]>
   (<["resume" := handle_resume_command]>
    (<["pause" := handle_pause_command]>
     (<["help" := handle_help_command]> ∅)))).

Definition commands : gmap string handler := register_default_commands.

Definition process_command (m : Message) : M bool :=
  if negb (Py.startswith "#lovebot" (content m)) then ret false
  else
    let parts :=
      Py.split " " (Py.strip (Py.slice_from (String.length "#lovebot") (content m))) in
    let command := match parts with p :: _ => Py.lower p | [] => "" end in
    let args := Py.tail_args parts in
    match commands !! command with
    | Some h => run h args m in ret true
    | None => ret false
    end.

End CommandHandler.

(** ** services/ai_processor.py *)

Module AIProcessor.

Definition process_message (e : env) (m : Message) (history : list Message)
  : M ProcessedMessage :=
  let* n := (run emit (NlpAnalyze (content m)) in lift (nlp_analyze e (content m))) in
  let* s := (run emit (SentimentAnalyze (content m)) in
             lift (sentiment_analyze e (content m))) in
  let* before := calls in
  run emit (UpdateContext m n s) in
  run lift (update_context e before m n s) in
  let* before := calls in
  run emit (GetRelevantContext n) in
  let* r := lift (get_relevant_context e before n) in
  ret (mkProcessedMessage m n s r).

Definition _determine_response_need (p : ProcessedMessage) : bool :=
  (score (sentiment p) <? -0.7)%float.

Definition should_respond (p : ProcessedMessage) : bool :=
  _determine_response_need p.

End AIProcessor.

(** ** app.py *)

Module LoveBot.

(** [message_data[key]] *)
Definition subscript (d : gmap string string) (key : string) : M string :=
  match d !! key with
  | Some v => ret v
  | None => raise (KeyError key)
  end.

(** [datetime.now()] in [app.py] *)
Definition now (e : env) : M Z :=
  match datetime_now e with
  | Some t => ret t
  | None => raise (NameError "datetime")
  end.

Definition response : string :=
  "I noticed there might be some tension. Remember to use 'I' statements.".

(** The [Message(...)] call at the head of [handle_message], its keyword
    arguments evaluated from left to right. *)
Definition build_message (e : env) (message_data : gmap string string)
  : M Message :=
  let* from_ := subscript message_data "from" in
  let g := default "" (message_data !! "group_id") in
  let* body := subscript message_data "body" in
  let* t := now e in
  let i := default "" (message_data !! "id") in
  ret (mkMessage from_ g body t (Some i)).

Definition handle_message (e : env) (message_data : gmap string string)
  : M unit :=
  let* message := build_message e message_data in
  run MessageDatabase.store_message e message in
  let* is_command := CommandHandler.process_command message in
  if is_command then ret tt
  else
    let* history :=
      MessageDatabase.get_conversation_history e (group message) 50 in
    let* processed := AIProcessor.process_message e message history in
    if AIProcessor.should_respond processed then
      run WhatsAppIntegration.send_message e (group message) response in
      ret tt
    else ret tt.

End LoveBot.

(** ** Stages of [handle_message] *)

Module Stage.

(** The message [handle_message] builds from a payload with a sender and
    a body, at the instant [t]. *)
Definition inbound (d : gmap string string) (from_ body : string) (t : Z)
  : Message :=
  mkMessage from_ (default "" (d !! "group_id")) body t
            (Some (default "" (d !! "id"))).

(** The world once [m] is stored. *)
Definition stored (m : Message) (w : world) : world :=
  mkWorld (messages w ++ [MessageDatabase.document_of_message m])
          (trace w ++ [InsertOne (MessageDatabase.document_of_message m)]).

(** The world once the history of the conversation of [m] is fetched. *)
Definition fetched (m : Message) (w : world) : world :=
  mkWorld (messages w) (trace w ++ [Find (group m) 50]).

End Stage.

(** ** The specification's notions, for comparison with the code *)

Module Spec.

(** The recognised command tokens. *)
Definition command_names : list string :=
  ["help"; "pause"; "resume"; "settings"; "feedback"].

(** The content begins with the prefix, and what follows it, trimmed and
    cut at single spaces, has a first field that is in lower case the
    recognised token [name]; the other fields are [args]. *)
Definition names_command (c name : string) (args : list string) : Prop :=
  exists rest tok,
    c = "#lovebot" +:+ rest
    /\ Py.split " " (Py.strip rest) = tok :: args
    /\ Py.lower tok = name
    /\ name ∈ command_names.

Definition is_command (c : string) : Prop :=
  exists name args, names_command c name args.

(** The conversation-level flag of the specification, "set by pause,
    cleared by resume": read off the handlers entered so far for the
    conversation [g], oldest first. *)
Definition flag_step (g : string) (flag : bool) (ev : event) : bool :=
  match ev with
  | Handler name _ m =>
      if decide (group m = g) then
        if decide (name = "pause") then true
        else if decide (name = "resume") then false
        else flag
      else flag
  | _ => flag
  end.

Definition paused (g : string) (tr : list event) : bool :=
  fold_left (flag_step g) tr false.

(** Modelled from the spec: the classification made by
    [SentimentAnalyzer.analyze] of [services/sentiment_analyzer.py], a
    module [ai_processor.py] imports and the repository does not have.
    The score and the magnitude are left to the implementation and are
    arguments here; a score under the negative threshold is negative, one
    over the positive threshold is positive, any other is neutral. *)
Definition classify (negative_threshold positive_threshold : float)
    (score magnitude : float) : SentimentResult :=
  let neg := (score <? negative_threshold)%float in
  let pos := (positive_threshold <? score)%float in
  mkSentimentResult score magnitude pos neg (negb (pos || neg)).

(** Exactly one of three booleans holds. *)
Definition exactly_one (a b c : bool) : bool :=
  match a, b, c with
  | true, false, false | false, true, false | false, false, true => true
  | _, _, _ => false
  end.

(** A payload that carries no conversation identifier. *)
Definition direct (d : gmap string string) : Prop := d !! "group_id" = None.

(** Some record was written to the logger after the calls [before]. *)
Definition logged_since (before : list event) (w : world) : Prop :=
  exists l text, Log l text ∈ drop (length before) (trace w).

(** Timestamps of a history, in the order returned. *)
Definition newest_first (l : list Message) : Prop :=
  StronglySorted (fun a b => (timestamp b <= timestamp a)%Z) l.

(** "A failure of the store operation is caught and logged, and the
    pipeline still continues": whenever the message is built and the
    insertion fails, [handle_message] returns, with a record in the log. *)
Definition store_failure_tolerated : Prop :=
  forall e d w m x,
    LoveBot.build_message e d w = (Ok m, w) ->
    insert_fault e = Some x ->
    exists w', LoveBot.handle_message e d w = (Ok tt, w')
               /\ logged_since (trace w) w'.

(** "No error propagates out of the message handler." *)
Definition errors_contained : Prop :=
  forall e d w, exists w', LoveBot.handle_message e d w = (Ok tt, w').

(** "Without a conversation identifier, the conversation is keyed by the
    sender": two such payloads of different senders are built into
    messages of different conversations. *)
Definition keyed_by_sender : Prop :=
  forall e d1 d2 w m1 m2,
    direct d1 -> direct d2 ->
    LoveBot.build_message e d1 w = (Ok m1, w) ->
    LoveBot.build_message e d2 w = (Ok m2, w) ->
    sender m1 <> sender m2 ->
    group m1 <> group m2.

(** "For every limit, the history has at most [limit] messages." *)
Definition history_within_limit : Prop :=
  forall e g limit w l w',
    MessageDatabase.get_conversation_history e g limit w = (Ok l, w') ->
    (Z.of_nat (length l) <= limit)%Z.

End Spec.

(** ** Concrete surroundings *)

Module Scenario.

Definition no_entities : NLPResult := mkNLPResult [] "unknown" [] [].

Definition tense : SentimentResult :=
  mkSentimentResult (-0.9) 0.9 false true false.

(** Every collaborator answers; every text is scored -0.9. *)
Definition healthy : env :=
  mkEnv (Some 1700000000000%Z) None None (Some "+15550100")
        (fun _ _ _ => Ok "SM0001")
        (fun _ => Ok no_entities)
        (fun _ => Ok tense)
        (fun _ _ _ _ => Ok tt)
        (fun _ _ => Ok []).

Definition unreachable : exn :=
  Exn "ServerSelectionTimeoutError" "localhost:27017: connection refused".

(** [healthy], but the insertion fails. *)
Definition store_down : env :=
  mkEnv (datetime_now healthy) (Some unreachable) None (phone_number healthy)
        (messages_create healthy) (nlp_analyze healthy)
        (sentiment_analyze healthy) (update_context healthy)
        (get_relevant_context healthy).

(** [healthy], but the query fails. *)
Definition find_down : env :=
  mkEnv (datetime_now healthy) None (Some unreachable) (phone_number healthy)
        (messages_create healthy) (nlp_analyze healthy)
        (sentiment_analyze healthy) (update_context healthy)
        (get_relevant_context healthy).

(** [healthy], but Twilio refuses the message. *)
Definition twilio_down : env :=
  mkEnv (datetime_now healthy) None None (phone_number healthy)
        (fun _ _ _ => Raised (Exn "TwilioRestException" "HTTP 401 error"))
        (nlp_analyze healthy)
        (sentiment_analyze healthy) (update_context healthy)
        (get_relevant_context healthy).

(** [healthy], but with [datetime] unbound, as in [app.py] as it stands. *)
Definition as_it_stands : env :=
  mkEnv None None None (phone_number healthy)
        (messages_create healthy) (nlp_analyze healthy)
        (sentiment_analyze healthy) (update_context healthy)
        (get_relevant_context healthy).

Definition nothing_yet : world := mkWorld [] [].

(** A payload of conversation G1. *)
Definition in_group (from_ body : string) : gmap string string :=
  <["from" := from_]> (<["group_id" := "G1"]> {["body" := body]}).

(** A payload without a conversation identifier. *)
Definition alone (from_ body : string) : gmap string string :=
  <["from" := from_]> {["body" := body]}.

(** A collection with two messages of G1 and one of G2. *)
Definition three_stored : world :=
  mkWorld [mkDocument "+15550101" "G1" "hello" 10;
           mkDocument "+15550102" "G2" "hi" 20;
           mkDocument "+15550103" "G1" "well" 30] [].

End Scenario.


(** ** More builtins *)

Module PyMore.

(** [s.replace(old, new)] for a non-empty [old]: the occurrences of [old]
    are found from the left, without overlap. [skip] counts the
    characters of an occurrence still to be passed over. *)
Fixpoint replace_from (old new : string) (skip : nat) (s : string) : string :=
  match s with
  | EmptyString => EmptyString
  | String c s' =>
      match skip with
      | S k => replace_from old new k s'
      | O =>
          if Py.startswith old s
          then new +:+ replace_from old new (String.length old - 1) s'
          else String c (replace_from old new 0 s')
      end
  end.

Definition replace (old new s : string) : string := replace_from old new 0 s.




End PyMore.

(** ** integrations/whatsapp.py, the webhook side *)

Module Webhook.

(** A callable registered as handler: a function ([def]), or a coroutine
    function ([async def]). *)
Inductive callback :=
| Function (f : gmap string string -> M unit)
| CoroutineFunction (f : gmap string string -> M unit).

(** [callback(x)] as a statement, its value dropped. A function runs. A
    coroutine function returns a coroutine object and its body does not
    run; nothing awaits the object. *)
Definition call (c : callback) (x : gmap string string) : M unit :=
  match c with
  | Function f => f x
  | CoroutineFunction _ => ret tt
  end.

Definition initialize : M unit :=
  emit (Log INFO "Initializing WhatsApp Business API connection").

(** [self.webhook_handlers['message'] = callback] *)
Definition subscribe_to_messages (cb : callback)
    (webhook_handlers : gmap string callback) : gmap string callback :=
  <["message" := cb]> webhook_handlers.

Definition process_webhook (webhook_handlers : gmap string callback)
    (data : gmap string (gmap string string)) : M unit :=
  match webhook_handlers !! "message", data !! "message" with
  | Some cb, Some x => call cb x
  | _, _ => ret tt
  end.

(** [LoveBot.start], run for [fuel] turns of its [while True] loop: it
    logs, initializes the transport, registers [handle_message], and
    sleeps. [None] says the loop is still running; the handlers are those
    of the transport when the fuel ends. *)
Fixpoint keep_running (fuel : nat) : M (option unit) :=
  match fuel with
  | O => ret None
  | S fuel' => keep_running fuel'
  end.

Definition start (e : env) (webhook_handlers : gmap string callback)
    (fuel : nat) : M (gmap string callback * option unit) :=
  run emit (Log INFO "Starting LoveBot") in
  run initialize in
  let handlers :=
    subscribe_to_messages (CoroutineFunction (LoveBot.handle_message e))
      webhook_handlers in
  let* r := keep_running fuel in
  ret (handlers, r).

End Webhook.

(** ** test_whatsapp.py *)

Module TestWhatsApp.





End TestWhatsApp.

(** ** Runs that make the same calls *)

Module Calls.

(** [c1] and [c2] end alike, with the same calls made, from any two
    worlds where the same calls were made: they do not read the
    collection. *)
Definition alike {A} (c1 c2 : M A) : Prop :=
  forall w1 w2,
    trace w1 = trace w2 ->
    fst (c1 w1) = fst (c2 w2) /\ trace (snd (c1 w1)) = trace (snd (c2 w2)).

(** The same, but for the values returned, which may differ. *)
Definition alike_but_value {A} (c1 c2 : M A) : Prop :=
  forall w1 w2,
    trace w1 = trace w2 ->
    trace (snd (c1 w1)) = trace (snd (c2 w2))
    /\ match fst (c1 w1), fst (c2 w2) with
       | Ok _, Ok _ => True
       | Raised x1, Raised x2 => x1 = x2
       | _, _ => False
       end.

(** The calls made by a run from [w] to [w']. *)
Definition since (w w' : world) : list event :=
  drop (length (trace w)) (trace w').

Definition is_create (ev : event) : bool :=
  match ev with MessagesCreate _ _ _ => true | _ => false end.

End Calls.

(** * Properties *)

Import Py MessageDatabase WhatsAppIntegration CommandHandler AIProcessor LoveBot.

(** ** The builtins compute what Python's do *)

Section PyFacts.

Lemma append_nil (r : string) : EmptyString +:+ r = r.
Proof. reflexivity. Qed.

Lemma append_cons (a : ascii) (p r : string) :
  String a p +:+ r = String a (p +:+ r).
Proof. reflexivity. Qed.

Lemma startswith_spec (p s : string) :
  startswith p s = true <-> exists r, s = p +:+ r.
Proof.
  revert s; induction p as [|a p IH]; intros s; simpl.
  - split; [intros _; now exists s | reflexivity].
  - destruct s as [|b s]; simpl.
    + split; [discriminate | intros [r Hr]; discriminate].
    + destruct (Ascii.eqb a b) eqn:Hab.
      * apply Ascii.eqb_eq in Hab; subst b. rewrite IH.
        split; intros [r Hr]; exists r; rewrite ?append_cons in *; congruence.
      * apply Ascii.eqb_neq in Hab.
        split; [discriminate | intros [r Hr]; rewrite append_cons in Hr; congruence].
Qed.

Lemma slice_from_app (p r : string) :
  slice_from (String.length p) (p +:+ r) = r.
Proof.
  induction p as [|a p IH]; [now destruct r|].
  rewrite append_cons. exact IH.
Qed.

Lemma split_not_nil (sep : ascii) (s : string) : split sep s <> [].
Proof.
  induction s as [|c s IH]; simpl; [discriminate|].
  destruct (Ascii.eqb c sep); [discriminate|].
  destruct (split sep s); discriminate.
Qed.

(** Joining the fields with the separator gives the string back. *)
Lemma join_split (sep : ascii) (s : string) :
  join (String sep EmptyString) (split sep s) = s.
Proof.
  induction s as [|c s IH]; simpl; [reflexivity|].
  destruct (Ascii.eqb c sep) eqn:Hc.
  - apply Ascii.eqb_eq in Hc; subst c.
    pose proof (split_not_nil sep s) as Hne.
    destruct (split sep s) as [|f fs]; [contradiction|].
    change (String sep (join (String sep EmptyString) (f :: fs)) = String sep s).
    now rewrite IH.
  - pose proof (split_not_nil sep s) as Hne.
    destruct (split sep s) as [|f fs]; [contradiction|].
    rewrite <- IH. destruct fs as [|g fs]; reflexivity.
Qed.

(** No field contains the separator. *)
Lemma split_no_sep (sep : ascii) (s f : string) :
  f ∈ split sep s -> ~ In sep (list_ascii_of_string f).
Proof.
  revert f; induction s as [|c s IH]; intros f; simpl.
  - intros ->%list_elem_of_singleton. simpl. tauto.
  - destruct (Ascii.eqb c sep) eqn:Hc.
    + intros [->|Hf]%elem_of_cons; [simpl; tauto | now apply IH].
    + apply Ascii.eqb_neq in Hc.
      destruct (split sep s) as [|g gs] eqn:Hs.
      * intros ->%list_elem_of_singleton. simpl. intros [?|[]]; congruence.
      * intros [->|Hf]%elem_of_cons.
        -- simpl. intros [?|Hin]; [congruence|].
           revert Hin. apply IH. left.
        -- apply IH. now right.
Qed.

Lemma tail_args_cons (tok : string) (args : list string) :
  tail_args (tok :: args) = args.
Proof.
  unfold tail_args. destruct (decide _) as [H|H]; [reflexivity|].
  destruct args as [|a args]; [reflexivity | simpl in H; lia].
Qed.

(** What is trimmed is white space, and what is left neither starts nor
    ends with white space. *)
Lemma lstrip_spec (s : string) :
  exists l, s = l +:+ lstrip s
    /\ Forall (fun c => isspace c = true) (list_ascii_of_string l)
    /\ match lstrip s with String c _ => isspace c = false | EmptyString => True end.
Proof.
  induction s as [|c s (l & Hl & Hws & Hhd)]; simpl.
  - exists EmptyString. repeat split. constructor.
  - destruct (isspace c) eqn:Hc.
    + exists (String c l). rewrite append_cons. split; [congruence|].
      split; [|exact Hhd]. now constructor.
    + exists EmptyString. simpl. repeat split; [constructor | exact Hc].
Qed.

Lemma rstrip_spec (s : string) :
  exists r, s = rstrip s +:+ r
    /\ Forall (fun c => isspace c = true) (list_ascii_of_string r).
Proof.
  induction s as [|c s (r & Hr & Hws)]; simpl.
  - exists EmptyString. split; [reflexivity | constructor].
  - destruct (rstrip s) as [|d t] eqn:Hs.
    + destruct (isspace c) eqn:Hc.
      * exists (String c r). rewrite append_nil in *. split; [congruence|].
        now constructor.
      * exists r. rewrite append_cons, append_nil in *.
        split; [congruence | exact Hws].
    + exists r. rewrite !append_cons in *. split; [congruence | exact Hws].
Qed.

End PyFacts.

(** ** The runtime *)

Section RuntimeFacts.

Lemma bind_ok {A B} (c : M A) (k : A -> M B) w a w' :
  c w = (Ok a, w') -> bind c k w = k a w'.
Proof. unfold bind. now intros ->. Qed.

Lemma bind_raised {A B} (c : M A) (k : A -> M B) w x w' :
  c w = (Raised x, w') -> bind c k w = (Raised x, w').
Proof. unfold bind. now intros ->. Qed.


End RuntimeFacts.

(** ** The command router *)

Section Commands.

Import Spec.

Lemma commands_lookup (c : string) :
  commands !! c =
    if decide (c = "feedback") then Some handle_feedback_command
    else if decide (c = "settings") then Some handle_settings_command
    else if decide (c = "resume") then Some handle_resume_command
    else if decide (c = "pause") then Some handle_pause_command
    else if decide (c = "help") then Some handle_help_command
    else None.
Proof.
  unfold commands, register_default_commands.
  repeat (rewrite lookup_insert;
          destruct (decide (_ = c)) as [<-|?]; [reflexivity|];
          destruct (decide (c = _)) as [->|?]; [congruence|]).
  apply lookup_empty.
Qed.

(** A registered handler is the one of its name, and running it only
    records that it was entered. *)
Lemma commands_dispatch (c : string) (h : handler) :
  commands !! c = Some h ->
  c ∈ command_names
  /\ forall args m w,
       h args m w = (Ok tt, mkWorld (messages w) (trace w ++ [Handler c args m])).
Proof.
  rewrite commands_lookup. unfold command_names.
  repeat (destruct (decide (c = _)) as [->|?];
          [intros [= <-]; split;
           [apply list_elem_of_In; simpl; tauto | reflexivity]|]).
  discriminate.
Qed.

Lemma commands_lookup_None (c : string) :
  commands !! c = None <-> c ∉ command_names.
Proof.
  rewrite commands_lookup. unfold command_names.
  repeat (destruct (decide (c = _)) as [->|?];
          [split; [discriminate|];
           intros H; exfalso; apply H, list_elem_of_In; simpl; tauto|]).
  split; [|reflexivity].
  intros _ H%list_elem_of_In. simpl in H. intuition congruence.
Qed.

(** [process_command], one case per branch of the source. *)
Lemma process_command_cases (m : Message) (w : world) :
  process_command m w =
    if startswith "#lovebot" (content m) then
      match split " " (strip (slice_from 8 (content m))) with
      | tok :: args =>
          if decide (lower tok ∈ command_names) then
            (Ok true,
             mkWorld (messages w) (trace w ++ [Handler (lower tok) args m]))
          else (Ok false, w)
      | [] => (Ok false, w)
      end
    else (Ok false, w).
Proof.
  unfold process_command.
  destruct (startswith "#lovebot" (content m)); cbn [negb]; [|reflexivity].
  change (String.length "#lovebot") with 8.
  destruct (split " " (strip (slice_from 8 (content m)))) as [|tok args] eqn:Hs.
  - destruct (commands !! "") as [h|] eqn:Hh; [|reflexivity].
    apply commands_dispatch in Hh as [Hin%list_elem_of_In _].
    simpl in Hin. intuition discriminate.
  - rewrite tail_args_cons.
    destruct (commands !! lower tok) as [h|] eqn:Hh.
    + apply commands_dispatch in Hh as [Hin Hrun].
      rewrite decide_True by exact Hin.
      unfold bind. now rewrite Hrun.
    + apply commands_lookup_None in Hh.
      now rewrite decide_False by exact Hh.
Qed.

Lemma names_command_split (c name : string) (args : list string) :
  names_command c name args <->
  startswith "#lovebot" c = true
  /\ exists tok, split " " (strip (slice_from 8 c)) = tok :: args
       /\ lower tok = name /\ name ∈ command_names.
Proof.
  split.
  - intros (rest & tok & -> & Hs & Hl & Hin). split.
    + apply startswith_spec. now exists rest.
    + exists tok. change 8 with (String.length "#lovebot").
      now rewrite slice_from_app.
  - intros (Hp & tok & Hs & Hl & Hin).
    apply startswith_spec in Hp as [rest ->].
    change 8 with (String.length "#lovebot") in Hs.
    rewrite slice_from_app in Hs. now exists rest, tok.
Qed.

End Commands.

(** ** The stages of [handle_message] *)

Section Pipeline.

Import Stage.

Variable e : env.

Lemma build_message_ok d w from_ body t :
  d !! "from" = Some from_ -> d !! "body" = Some body ->
  datetime_now e = Some t ->
  build_message e d w = (Ok (inbound d from_ body t), w).
Proof.
  intros Hf Hb Ht. unfold build_message, bind, subscript, now.
  now rewrite Hf, Hb, Ht.
Qed.

(** With [datetime] unbound, as in [app.py] as it stands, the message is
    never built. *)
Lemma build_message_unbound d w from_ body :
  d !! "from" = Some from_ -> d !! "body" = Some body ->
  datetime_now e = None ->
  build_message e d w = (Raised (NameError "datetime"), w).
Proof.
  intros Hf Hb Ht. unfold build_message, bind, subscript, now.
  now rewrite Hf, Hb, Ht.
Qed.

Lemma build_message_world d w : snd (build_message e d w) = w.
Proof.
  unfold build_message, bind, subscript, now.
  destruct (d !! "from"); [|reflexivity].
  destruct (d !! "body"); [|reflexivity].
  now destruct (datetime_now e).
Qed.

Lemma store_message_ok m w :
  insert_fault e = None -> store_message e m w = (Ok tt, stored m w).
Proof.
  intros H. unfold store_message, insert_one, bind. simpl. now rewrite H.
Qed.

Lemma store_message_fault m w x :
  insert_fault e = Some x ->
  store_message e m w =
    (Raised x,
     mkWorld (messages w) (trace w ++ [InsertOne (document_of_message m)])).
Proof.
  intros H. unfold store_message, insert_one, bind. simpl. now rewrite H.
Qed.

Lemma history_fault g limit w x :
  find_fault e = Some x ->
  get_conversation_history e g limit w =
    (Raised x, mkWorld (messages w) (trace w ++ [Find g limit])).
Proof.
  intros H. unfold get_conversation_history, bind. simpl. now rewrite H.
Qed.

Lemma history_ok g limit w :
  find_fault e = None ->
  get_conversation_history e g limit w =
    (Ok (message_of_document <$>
           cursor_limit limit (sort_newer_first (find_group g (messages w)))),
     mkWorld (messages w) (trace w ++ [Find g limit])).
Proof.
  intros H. unfold get_conversation_history, bind. simpl. now rewrite H.
Qed.

(** The rest of [handle_message] once the message is built. *)
Lemma handle_message_built d w m :
  build_message e d w = (Ok m, w) ->
  handle_message e d w =
    bind (store_message e m) (fun _ =>
    bind (process_command m) (fun is_command =>
      if is_command then ret tt
      else
        bind (get_conversation_history e (group m) 50) (fun history =>
        bind (process_message e m history) (fun processed =>
          if should_respond processed then
            bind (send_message e (group m) response) (fun _ => ret tt)
          else ret tt)))) w.
Proof. intros H. unfold handle_message. now rewrite (bind_ok _ _ _ _ _ H). Qed.

Lemma handle_message_not_built d w x :
  build_message e d w = (Raised x, w) ->
  handle_message e d w = (Raised x, w).
Proof. intros H. unfold handle_message. now rewrite (bind_raised _ _ _ _ _ H). Qed.

(** [send_message] returns whatever [messages.create] does. *)
Lemma send_message_cases recipient text w :
  let from_ := "whatsapp:" +:+ str_opt (phone_number e) in
  let to := "whatsapp:" +:+ recipient in
  send_message e recipient text w =
    match messages_create e from_ text to with
    | Ok sid =>
        (Ok (<["message_id" := sid]> {["status" := "success"]}),
         mkWorld (messages w)
           (trace w ++ [MessagesCreate from_ text to;
                        Log DEBUG ("Sent message to " +:+ recipient +:+ ": " +:+ sid)]))
    | Raised x =>
        (Ok (<["error" := exn_str x]> {["status" := "error"]}),
         mkWorld (messages w)
           (trace w ++ [MessagesCreate from_ text to;
                        Log ERROR ("Failed to send message: " +:+ exn_str x)]))
    end.
Proof.
  unfold send_message, try_except, create, bind, lift. simpl.
  destruct (messages_create e _ text _); simpl; now rewrite <- app_assoc.
Qed.

(** The analysis starts by handing the content to the NLP service; it
    changes nothing in the collection. *)
Lemma process_message_trace m h w :
  exists o evs,
    process_message e m h w =
      (o, mkWorld (messages w) (trace w ++ NlpAnalyze (content m) :: evs))
    /\ forall l text, Log l text ∉ evs.
Proof.
  unfold process_message, bind, lift, calls, emit, ret. simpl.
  destruct (nlp_analyze e (content m)) as [n|x]; simpl;
    [|eexists _, []; split; [reflexivity | intros ? ?; apply not_elem_of_nil]].
  destruct (sentiment_analyze e (content m)) as [s|x]; simpl;
    [|eexists _, [_]; rewrite <- !app_assoc; split; [reflexivity|];
      intros ? ? ?%list_elem_of_In; simpl in *; intuition discriminate].
  destruct (update_context e _ m n s) as [[]|x]; simpl;
    [|eexists _, [_; _]; rewrite <- !app_assoc; split; [reflexivity|];
      intros ? ? ?%list_elem_of_In; simpl in *; intuition discriminate].
  destruct (get_relevant_context e _ n) as [r|x]; simpl;
    eexists _, [_; _; _]; rewrite <- !app_assoc; (split; [reflexivity|]);
    intros ? ? ?%list_elem_of_In; simpl in *; intuition discriminate.
Qed.

End Pipeline.

(** ** Claims on the command router *)

Section CommandClaims.

Import Spec Stage Scenario.

Lemma is_command_or_not (c : string) : is_command c \/ ~ is_command c.
Proof.
  destruct (startswith "#lovebot" c) eqn:Hp.
  - destruct (split " " (strip (slice_from 8 c))) as [|tok args] eqn:Hs.
    + right. intros (name & args & (_ & tok & Hs' & _)%names_command_split).
      congruence.
    + destruct (decide (lower tok ∈ command_names)) as [Hin|Hin].
      * left. exists (lower tok), args. apply names_command_split.
        split; [exact Hp|]. now exists tok.
      * right. intros (name & args' & (_ & tok' & Hs' & <- & Hin')%names_command_split).
        congruence.
  - right. intros (name & args & (Hp' & _)%names_command_split). congruence.
Qed.

(** A content that names a command enters the handler of that name. *)
Lemma process_command_enters (m : Message) (w : world) name args :
  names_command (content m) name args ->
  process_command m w =
    (Ok true, mkWorld (messages w) (trace w ++ [Handler name args m])).
Proof.
  intros (Hp & tok & Hs & <- & Hin)%names_command_split.
  rewrite process_command_cases, Hp, Hs. now rewrite decide_True by exact Hin.
Qed.

(** Any other content is declined, and nothing happens. *)
Lemma process_command_declines (m : Message) (w : world) :
  ~ is_command (content m) -> process_command m w = (Ok false, w).
Proof.
  intros Hn. rewrite process_command_cases.
  destruct (startswith "#lovebot" (content m)) eqn:Hp; [|reflexivity].
  destruct (split " " (strip (slice_from 8 (content m)))) as [|tok args] eqn:Hs;
    [reflexivity|].
  destruct (decide (lower tok ∈ command_names)) as [Hin|Hin]; [|reflexivity].
  exfalso. apply Hn. exists (lower tok), args.
  apply names_command_split. split; [exact Hp|]. now exists tok.
Qed.

(** C4. [process_command] returns true exactly for a content that begins
    with "#lovebot" and whose first token, after the prefix is removed,
    the rest trimmed, cut at single spaces and put in lower case, is one
    of help, pause, resume, settings, feedback; it then enters the handler
    of that token with the other tokens as arguments. For any other
    content it returns false and leaves the world as it is; it never
    raises. "#lovebot frobnicate" is such a content, and [handle_message]
    goes on to hand it to the analysis. *)
Theorem process_command_recognizes (m : Message) (w : world) :
  (fst (process_command m w) = Ok true <-> is_command (content m))
  /\ (fst (process_command m w) = Ok false <-> ~ is_command (content m))
  /\ (forall name args,
        names_command (content m) name args ->
        process_command m w =
          (Ok true,
           mkWorld (messages w) (trace w ++ [Handler name args m])))
  /\ (~ is_command (content m) -> process_command m w = (Ok false, w))
  /\ ~ is_command "#lovebot frobnicate"
  /\ (forall e d from_ t,
        d !! "from" = Some from_ ->
        d !! "body" = Some "#lovebot frobnicate" ->
        datetime_now e = Some t ->
        insert_fault e = None ->
        find_fault e = None ->
        exists evs,
          trace (snd (handle_message e d w)) =
            trace w ++
              [InsertOne (document_of_message (inbound d from_ "#lovebot frobnicate" t));
               Find (default "" (d !! "group_id")) 50;
               NlpAnalyze "#lovebot frobnicate"] ++ evs).
Proof.
  assert (Hyes := process_command_enters m w).
  assert (Hno := process_command_declines m w).
  assert (Hfrob : ~ is_command "#lovebot frobnicate").
  { intros (name & args & (_ & tok & Hs & <- & Hin)%names_command_split).
    vm_compute in Hs. injection Hs as <- <-.
    apply list_elem_of_In in Hin. vm_compute in Hin. intuition discriminate. }
  split; [|split; [|split; [exact Hyes | split; [exact Hno | split; [exact Hfrob|]]]]].
  - split.
    + intros Ht. destruct (is_command_or_not (content m)) as [Hc|Hc]; [exact Hc|].
      rewrite (Hno Hc) in Ht. discriminate.
    + intros (name & args & Hc). now rewrite (Hyes _ _ Hc).
  - split.
    + intros Hf (name & args & Hc). rewrite (Hyes _ _ Hc) in Hf. discriminate.
    + intros Hc. now rewrite (Hno Hc).
  - intros e d from_ t Hfrom Hbody Ht Hins Hfind.
    set (m' := inbound d from_ "#lovebot frobnicate" t).
    rewrite (handle_message_built e d w m') by now apply build_message_ok.
    rewrite (bind_ok _ _ _ _ _ (store_message_ok e m' w Hins)).
    erewrite bind_ok; cycle 1.
    { rewrite process_command_cases. reflexivity. }
    cbv iota.
    rewrite (bind_ok _ _ _ _ _ (history_ok e _ 50 _ Hfind)).
    match goal with |- context [bind (process_message e m' ?h)] =>
      destruct (process_message_trace e m' h
                  (mkWorld (messages (stored m' w))
                           (trace (stored m' w) ++ [Find (group m') 50])))
        as (o & evs & Hpm & _) end.
    unfold bind at 1. rewrite Hpm.
    destruct o as [p|x].
    + destruct (should_respond p).
      * unfold bind. rewrite send_message_cases. cbv zeta.
        destruct (messages_create e _ response _); simpl;
          eexists; rewrite <- !app_assoc; simpl; reflexivity.
      * simpl. eexists. rewrite <- !app_assoc. simpl. reflexivity.
    + simpl. eexists. rewrite <- !app_assoc. simpl. reflexivity.
Qed.

Lemma process_command_recognizes_witness :
  names_command "#lovebot  Pause now" "pause" ["now"]
  /\ process_command
       (mkMessage "+15550101" "G1" "#lovebot  Pause now" 0 None) nothing_yet =
     (Ok true,
      mkWorld []
        [Handler "pause" ["now"]
           (mkMessage "+15550101" "G1" "#lovebot  Pause now" 0 None)]).
Proof.
  assert (H : names_command "#lovebot  Pause now" "pause" ["now"]).
  { exists "  Pause now", "Pause". repeat split.
    apply list_elem_of_In. simpl. tauto. }
  split; [exact H|].
  exact (proj1 (proj2 (proj2 (process_command_recognizes
           (mkMessage "+15550101" "G1" "#lovebot  Pause now" 0 None)
           nothing_yet))) "pause" ["now"] H).
Defined.

End CommandClaims.

Section PrefixClaims.

Import Spec.

Variables (s g : string) (t : Z) (i : option string).

(** C10. The prefix is matched exactly and nothing has to separate it
    from the token: "#lovebothelp" enters the help handler and
    [process_command] returns true, as it does for every command name put
    right after the prefix; "#Lovebot help", like every content that
    begins with "#Lovebot", is no command; and "#lovebot" alone returns
    false. *)
Theorem prefix_match_is_exact (w : world) :
  process_command (mkMessage s g "#lovebothelp" t i) w =
    (Ok true,
     mkWorld (messages w)
       (trace w ++ [Handler "help" [] (mkMessage s g "#lovebothelp" t i)]))
  /\ process_command (mkMessage s g "#Lovebot help" t i) w = (Ok false, w)
  /\ process_command (mkMessage s g "#lovebot" t i) w = (Ok false, w)
  /\ Forall (fun name =>
       process_command (mkMessage s g ("#lovebot" +:+ name) t i) w =
         (Ok true,
          mkWorld (messages w)
            (trace w ++ [Handler name [] (mkMessage s g ("#lovebot" +:+ name) t i)])))
       command_names
  /\ (forall rest,
        process_command (mkMessage s g ("#Lovebot" +:+ rest) t i) w = (Ok false, w)).
Proof.
  split; [|split; [|split; [|split]]].
  - now rewrite process_command_cases.
  - now rewrite process_command_cases.
  - now rewrite process_command_cases.
  - unfold command_names. repeat constructor; now rewrite process_command_cases.
  - intros rest. now rewrite process_command_cases.
Qed.

End PrefixClaims.

(** ** Claims on the moderation decision *)

Section Moderation.

Import Spec Stage.

Lemma float_eqb_not_ltb (x y : float) :
  (x =? y)%float = true -> (x <? y)%float = false.
Proof.
  rewrite FloatAxioms.eqb_spec, FloatAxioms.ltb_spec. unfold SFeqb, SFltb.
  destruct (SFcompare _ _) as [[]|]; congruence.
Qed.

(** The decision reads the score and nothing else. *)
Lemma should_respond_score (p : ProcessedMessage) :
  should_respond p = (score (sentiment p) <? -0.7)%float.
Proof. reflexivity. Qed.

(** C5. The comparison with the threshold is strict: a processed message
    whose score equals -0.7 gets no response, and one whose score is
    -0.71 gets one. *)
Theorem threshold_is_strict (p : ProcessedMessage) :
  ((score (sentiment p) =? -0.7)%float = true -> should_respond p = false)
  /\ (score (sentiment p) = (-0.71)%float -> should_respond p = true).
Proof.
  split.
  - intros H. rewrite should_respond_score. now apply float_eqb_not_ltb.
  - intros H. rewrite should_respond_score, H. reflexivity.
Qed.

Lemma threshold_is_strict_witness :
  should_respond
    (mkProcessedMessage (mkMessage "+1" "G1" "fine" 0 None)
       (mkNLPResult [] "" [] [])
       (mkSentimentResult (-0.7) 0.7 false false true) []) = false
  /\ should_respond
    (mkProcessedMessage (mkMessage "+1" "G1" "you never listen" 0 None)
       (mkNLPResult [] "" [] [])
       (mkSentimentResult (-0.71) 0.71 false true false) []) = true.
Proof.
  split.
  - apply (proj1 (threshold_is_strict _)). reflexivity.
  - apply (proj2 (threshold_is_strict _)). reflexivity.
Defined.

Lemma paused_app (g : string) (tr : list event) (ev : event) :
  paused g (tr ++ [ev]) = flag_step g (paused g tr) ev.
Proof. unfold paused. now rewrite fold_left_app. Qed.

(** C1. The pause command leaves no mark the decision could read: after
    "#lovebot pause" in conversation G1, which the router accepts and
    which pauses G1 in the specification's sense, a message of G1 scored
    -0.9 still has [should_respond] true, and [handle_message] sends the
    intervention to G1. *)
Theorem pause_is_not_consulted (e : env) (w : world) (from_ : string)
    (t : Z) (n : NLPResult) (s : SentimentResult) (r : list Message) :
  let pause :=
    <["from" := from_]> (<["group_id" := "G1"]> {["body" := "#lovebot pause"]}) in
  let low :=
    <["from" := from_]> (<["group_id" := "G1"]> {["body" := "you never listen"]}) in
  datetime_now e = Some t ->
  insert_fault e = None ->
  find_fault e = None ->
  nlp_analyze e "you never listen" = Ok n ->
  sentiment_analyze e "you never listen" = Ok s ->
  score s = (-0.9)%float ->
  (forall tr m, update_context e tr m n s = Ok tt) ->
  (forall tr, get_relevant_context e tr n = Ok r) ->
  exists w1 w2,
    handle_message e pause w = (Ok tt, w1)
    /\ paused "G1" (trace w1) = true
    /\ handle_message e low w1 = (Ok tt, w2)
    /\ should_respond
         (mkProcessedMessage (inbound low from_ "you never listen" t) n s r) = true
    /\ MessagesCreate ("whatsapp:" +:+ str_opt (phone_number e)) response
         "whatsapp:G1" ∈ trace w2.
Proof.
  intros pause low Ht Hins Hfind Hn Hs Hscore Hup Hrel.
  set (mp := inbound pause from_ "#lovebot pause" t).
  set (ml := inbound low from_ "you never listen" t).
  assert (Hresp : should_respond (mkProcessedMessage ml n s r) = true).
  { rewrite should_respond_score. simpl. now rewrite Hscore. }
  set (w1 := mkWorld (messages (stored mp w))
                     (trace (stored mp w) ++ [Handler "pause" [] mp])).
  assert (H1 : handle_message e pause w = (Ok tt, w1)).
  { rewrite (handle_message_built e pause w mp)
      by now apply build_message_ok.
    rewrite (bind_ok _ _ _ _ _ (store_message_ok e mp w Hins)).
    erewrite bind_ok by (rewrite process_command_cases; reflexivity).
    reflexivity. }
  assert (H2 : exists w2, handle_message e low w1 = (Ok tt, w2)
             /\ MessagesCreate ("whatsapp:" +:+ str_opt (phone_number e))
                  response "whatsapp:G1" ∈ trace w2).
  { rewrite (handle_message_built e low w1 ml)
      by now apply build_message_ok.
    rewrite (bind_ok _ _ _ _ _ (store_message_ok e ml w1 Hins)).
    erewrite bind_ok by (rewrite process_command_cases; reflexivity).
    cbv iota.
    rewrite (bind_ok _ _ _ _ _ (history_ok e _ 50 _ Hfind)).
    erewrite bind_ok; cycle 1.
    { unfold process_message, bind, lift, calls, emit, ret. simpl.
      change (content ml) with "you never listen".
      rewrite Hn, Hs. simpl. rewrite Hup. simpl. rewrite Hrel. reflexivity. }
    rewrite Hresp.
    unfold bind. rewrite send_message_cases. cbv zeta.
    destruct (messages_create e _ response _);
      (eexists; split; [reflexivity|]);
      simpl; rewrite !elem_of_app; right;
      apply list_elem_of_In; simpl; tauto. }
  destruct H2 as (w2 & H2 & Hsent).
  exists w1, w2. split; [exact H1|]. split; [|now split].
  unfold w1. simpl. rewrite paused_app. reflexivity.
Qed.

End Moderation.

Section ModerationWitness.

Import Spec Stage Scenario.

Lemma pause_is_not_consulted_witness :
  exists w1 w2,
    handle_message healthy (in_group "+15550101" "#lovebot pause") nothing_yet
      = (Ok tt, w1)
    /\ paused "G1" (trace w1) = true
    /\ handle_message healthy (in_group "+15550101" "you never listen") w1
      = (Ok tt, w2)
    /\ should_respond
         (mkProcessedMessage
            (inbound (in_group "+15550101" "you never listen") "+15550101"
               "you never listen" 1700000000000)
            no_entities tense []) = true
    /\ MessagesCreate "whatsapp:+15550100" response "whatsapp:G1" ∈ trace w2.
Proof.
  apply (pause_is_not_consulted healthy nothing_yet "+15550101"
           1700000000000 no_entities tense []); reflexivity.
Defined.

End ModerationWitness.

(** ** Claims on errors *)

Section Errors.

Import Spec Stage Scenario.

(** C9. [send_message] never raises: whatever [messages.create] does, it
    returns a dict, which is the success record with the external
    message identifier when the call returned one, and the error record
    with the text of the exception when the call raised; the collection
    is not touched. [send_private_message] is the same call. *)
Theorem send_message_never_raises (e : env) (recipient text : string)
    (w : world) :
  exists (r : gmap string string) (w' : world),
    send_message e recipient text w = (Ok r, w')
    /\ send_private_message e recipient text w = (Ok r, w')
    /\ messages w' = messages w
    /\ ((exists sid,
           messages_create e ("whatsapp:" +:+ str_opt (phone_number e)) text
             ("whatsapp:" +:+ recipient) = Ok sid
           /\ r !! "status" = Some "success"
           /\ r !! "message_id" = Some sid
           /\ dom r = {["status"; "message_id"]})
        \/ (exists x,
           messages_create e ("whatsapp:" +:+ str_opt (phone_number e)) text
             ("whatsapp:" +:+ recipient) = Raised x
           /\ r !! "status" = Some "error"
           /\ r !! "error" = Some (exn_str x)
           /\ dom r = {["status"; "error"]}
           /\ Log ERROR ("Failed to send message: " +:+ exn_str x) ∈ trace w')).
Proof.
  unfold send_private_message. rewrite send_message_cases. cbv zeta.
  destruct (messages_create e _ text _) as [sid|x] eqn:Hc.
  - eexists _, _. split; [reflexivity|]. split; [reflexivity|].
    split; [reflexivity|]. left. exists sid.
    split; [reflexivity|]. split; [reflexivity|].
    split; [now rewrite lookup_insert_eq|].
    rewrite dom_insert_L, dom_singleton_L. set_solver.
  - eexists _, _. split; [reflexivity|]. split; [reflexivity|].
    split; [reflexivity|]. right. exists x.
    split; [reflexivity|]. split; [reflexivity|].
    split; [now rewrite lookup_insert_eq|].
    split; [rewrite dom_insert_L, dom_singleton_L; set_solver|].
    simpl. rewrite elem_of_app. right. apply list_elem_of_In. simpl. tauto.
Qed.

(** What follows the command check raises only from the query or from
    the analysis, and then without a record in the log. *)
Lemma moderation_raised (e : env) (m : Message) (w w' : world) (x : exn) :
  bind (get_conversation_history e (group m) 50) (fun history =>
  bind (process_message e m history) (fun processed =>
    if should_respond processed then
      bind (send_message e (group m) response) (fun _ => ret tt)
    else ret tt)) w = (Raised x, w') ->
  exists evs, w' = mkWorld (messages w) (trace w ++ evs)
              /\ forall l text, Log l text ∉ evs.
Proof.
  destruct (find_fault e) as [xf|] eqn:Hf.
  - rewrite (bind_raised _ _ _ _ _ (history_fault e _ 50 w xf Hf)).
    intros [= <- <-]. exists [Find (group m) 50]. split; [reflexivity|].
    intros l text Hin%list_elem_of_In. simpl in Hin. intuition discriminate.
  - rewrite (bind_ok _ _ _ _ _ (history_ok e _ 50 w Hf)).
    match goal with |- context [process_message e m ?h] =>
      destruct (process_message_trace e m h
                  (mkWorld (messages w) (trace w ++ [Find (group m) 50])))
        as (o & evs & Hpm & Hlog) end.
    unfold bind at 1. rewrite Hpm. destruct o as [p|xp].
    + destruct (should_respond p); [|discriminate].
      unfold bind. rewrite send_message_cases. cbv zeta.
      destruct (messages_create e _ response _); discriminate.
    + intros [= <- <-]. exists (Find (group m) 50 :: NlpAnalyze (content m) :: evs).
      simpl. rewrite <- app_assoc. split; [reflexivity|].
      intros l text [?|[?|Hin]%elem_of_cons]%elem_of_cons;
        [discriminate | discriminate | now apply Hlog in Hin].
Qed.

(** When [handle_message] raises, nothing was written to the log. *)
Lemma raised_is_not_logged (e : env) (d : gmap string string) (w w' : world)
    (x : exn) :
  handle_message e d w = (Raised x, w') -> ~ logged_since (trace w) w'.
Proof.
  assert (Hnone : forall ms evs, (forall l text, Log l text ∉ evs) ->
            ~ logged_since (trace w) (mkWorld ms (trace w ++ evs))).
  { intros ms evs Hevs (l & text & Hin). simpl in Hin.
    rewrite drop_app_length in Hin. now apply Hevs in Hin. }
  pose proof (build_message_world e d w) as Hw.
  destruct (build_message e d w) as [[m|x0] w0] eqn:Hb; simpl in Hw; subst w0.
  - rewrite (handle_message_built e d w m Hb).
    destruct (insert_fault e) as [xi|] eqn:Hi.
    + rewrite (bind_raised _ _ _ _ _ (store_message_fault e m w xi Hi)).
      intros [= <- <-]. apply (Hnone _ [_]).
      intros l text Hin%list_elem_of_In. simpl in Hin. intuition discriminate.
    + rewrite (bind_ok _ _ _ _ _ (store_message_ok e m w Hi)).
      destruct (process_command m (stored m w)) as [[[]|xc] wc] eqn:Hc;
        rewrite process_command_cases in Hc.
      * rewrite (bind_ok _ _ _ _ _ (eq_trans (process_command_cases _ _) Hc)).
        discriminate.
      * rewrite (bind_ok _ _ _ _ _ (eq_trans (process_command_cases _ _) Hc)).
        assert (wc = stored m w) as ->.
        { destruct (startswith "#lovebot" (content m)); [|congruence].
          destruct (split " " _); [congruence|].
          destruct (decide _); congruence. }
        intros (evs & -> & Hlog)%moderation_raised.
        unfold stored. simpl. rewrite <- app_assoc. apply Hnone.
        intros l text [?|Hin]%elem_of_cons; [discriminate | now apply Hlog in Hin].
      * exfalso. destruct (startswith "#lovebot" (content m)); [|congruence].
        destruct (split " " _); [congruence|].
        destruct (decide _); congruence.
  - rewrite (handle_message_not_built e d w x0 Hb). intros [= <- <-].
    intros (l & text & Hin). rewrite drop_all in Hin.
    now apply not_elem_of_nil in Hin.
Qed.

(** C2: the claim as stated fails. With the insertion failing,
    [handle_message] raises the error of the store; the only call made is
    the insertion: no log record, no command check, no analysis. *)
Lemma store_failure_aborts :
  handle_message store_down (in_group "+15550101" "hello") nothing_yet =
    (Raised unreachable,
     mkWorld []
       [InsertOne (mkDocument "+15550101" "G1" "hello" 1700000000000)])
  /\ ~ store_failure_tolerated.
Proof.
  assert (H : handle_message store_down (in_group "+15550101" "hello") nothing_yet =
    (Raised unreachable,
     mkWorld []
       [InsertOne (mkDocument "+15550101" "G1" "hello" 1700000000000)]))
    by reflexivity.
  split; [exact H|].
  intros Htol.
  destruct (Htol store_down (in_group "+15550101" "hello") nothing_yet
              (inbound (in_group "+15550101" "hello") "+15550101" "hello"
                 1700000000000) unreachable eq_refl eq_refl)
    as (w' & Hok & _).
  rewrite H in Hok. discriminate.
Qed.

(** C2, amended. A failure of the store operation is not caught: it ends
    [handle_message] with an exception. The collection is unchanged,
    nothing is logged, and the only call made since the start is the
    insertion itself, so the command check, the history, the analysis and
    the decision are not reached. When the message was built, the
    exception is the one the store raised. *)
Theorem store_failure_propagates (e : env) (d : gmap string string)
    (w : world) (x : exn) :
  insert_fault e = Some x ->
  exists x' w',
    handle_message e d w = (Raised x', w')
    /\ messages w' = messages w
    /\ ~ logged_since (trace w) w'
    /\ (forall ev, ev ∈ drop (length (trace w)) (trace w') ->
          exists doc, ev = InsertOne doc)
    /\ (forall m, build_message e d w = (Ok m, w) ->
          x' = x
          /\ trace w' = trace w ++ [InsertOne (document_of_message m)]).
Proof.
  intros Hi.
  pose proof (build_message_world e d w) as Hw.
  destruct (build_message e d w) as [[m|x0] w0] eqn:Hb; simpl in Hw; subst w0.
  - assert (H : handle_message e d w =
      (Raised x,
       mkWorld (messages w) (trace w ++ [InsertOne (document_of_message m)]))).
    { rewrite (handle_message_built e d w m Hb).
      now rewrite (bind_raised _ _ _ _ _ (store_message_fault e m w x Hi)). }
    eexists _, _. split; [exact H|]. split; [reflexivity|].
    split; [exact (raised_is_not_logged _ _ _ _ _ H)|]. split.
    + simpl. rewrite drop_app_length.
      intros ev ->%list_elem_of_singleton. now eexists.
    + intros m' [= <-]. now split.
  - pose proof (handle_message_not_built e d w x0 Hb) as H.
    eexists _, _. split; [exact H|]. split; [reflexivity|].
    split; [exact (raised_is_not_logged _ _ _ _ _ H)|]. split.
    + rewrite drop_all. intros ev Hin. now apply not_elem_of_nil in Hin.
    + intros m' [=].
Qed.

Lemma store_failure_propagates_witness :
  insert_fault store_down = Some unreachable
  /\ exists x' w',
    handle_message store_down (in_group "+15550101" "hello") nothing_yet
      = (Raised x', w')
    /\ messages w' = messages nothing_yet
    /\ ~ logged_since (trace nothing_yet) w'
    /\ (forall ev, ev ∈ drop (length (trace nothing_yet)) (trace w') ->
          exists doc, ev = InsertOne doc)
    /\ (forall m,
          build_message store_down (in_group "+15550101" "hello") nothing_yet
            = (Ok m, nothing_yet) ->
          x' = unreachable
          /\ trace w' = trace nothing_yet ++ [InsertOne (document_of_message m)]).
Proof.
  split; [reflexivity|].
  apply (store_failure_propagates store_down
           (in_group "+15550101" "hello") nothing_yet unreachable).
  reflexivity.
Defined.

(** C3: the claim as stated fails. A failure of the history query leaves
    [handle_message] as an exception, with nothing logged; so does the
    unbound name [datetime] of [app.py] as it stands. *)
Lemma history_failure_escapes :
  handle_message find_down (in_group "+15550101" "hello") nothing_yet =
    (Raised unreachable,
     mkWorld [mkDocument "+15550101" "G1" "hello" 1700000000000]
       [InsertOne (mkDocument "+15550101" "G1" "hello" 1700000000000);
        Find "G1" 50])
  /\ handle_message as_it_stands (in_group "+15550101" "hello") nothing_yet =
    (Raised (NameError "datetime"), nothing_yet)
  /\ ~ errors_contained.
Proof.
  assert (H : handle_message find_down (in_group "+15550101" "hello") nothing_yet =
    (Raised unreachable,
     mkWorld [mkDocument "+15550101" "G1" "hello" 1700000000000]
       [InsertOne (mkDocument "+15550101" "G1" "hello" 1700000000000);
        Find "G1" 50])) by reflexivity.
  split; [exact H|]. split; [reflexivity|].
  intros Hc.
  destruct (Hc find_down (in_group "+15550101" "hello") nothing_yet) as (w' & Hok).
  rewrite H in Hok. discriminate.
Qed.

(** C3, amended. [handle_message] catches nothing itself. An exception
    raised while the message is built, stored, its history fetched or
    its content analysed leaves [handle_message], the later steps are not
    run, and nothing is logged. Only a failure of the transport is
    caught, inside [send_message], which logs it: [handle_message] then
    returns normally. A command never raises. *)
Theorem only_send_failures_are_caught (e : env) (d : gmap string string)
    (w : world) :
  (forall x w', handle_message e d w = (Raised x, w') ->
     ~ logged_since (trace w) w')
  /\ (forall x, build_message e d w = (Raised x, w) ->
        handle_message e d w = (Raised x, w))
  /\ (forall m, build_message e d w = (Ok m, w) ->
      (forall x, insert_fault e = Some x ->
         fst (handle_message e d w) = Raised x)
      /\ (insert_fault e = None ->
          (forall name args, names_command (content m) name args ->
             handle_message e d w =
               (Ok tt,
                mkWorld (messages (stored m w))
                  (trace (stored m w) ++ [Handler name args m])))
          /\ (~ is_command (content m) ->
              (forall x, find_fault e = Some x ->
                 handle_message e d w = (Raised x, fetched m (stored m w)))
              /\ (find_fault e = None ->
                  let history :=
                    message_of_document <$>
                      cursor_limit 50
                        (sort_newer_first
                           (find_group (group m) (messages (stored m w)))) in
                  (forall x w',
                     process_message e m history (fetched m (stored m w))
                       = (Raised x, w') ->
                     handle_message e d w = (Raised x, w'))
                  /\ (forall p w' x,
                        process_message e m history (fetched m (stored m w))
                          = (Ok p, w') ->
                        should_respond p = true ->
                        messages_create e
                          ("whatsapp:" +:+ str_opt (phone_number e)) response
                          ("whatsapp:" +:+ group m) = Raised x ->
                        handle_message e d w =
                          (Ok tt,
                           mkWorld (messages w')
                             (trace w' ++
                                [MessagesCreate
                                   ("whatsapp:" +:+ str_opt (phone_number e))
                                   response ("whatsapp:" +:+ group m);
                                 Log ERROR
                                   ("Failed to send message: " +:+ exn_str x)]))))))).
Proof.
  split; [intros x w'; apply raised_is_not_logged|].
  split; [apply handle_message_not_built|].
  intros m Hb. rewrite (handle_message_built e d w m Hb). split.
  - intros x Hi.
    now rewrite (bind_raised _ _ _ _ _ (store_message_fault e m w x Hi)).
  - intros Hi. rewrite (bind_ok _ _ _ _ _ (store_message_ok e m w Hi)). split.
    + intros name args Hc.
      now rewrite (bind_ok _ _ _ _ _ (process_command_enters m _ name args Hc)).
    + intros Hc.
      rewrite (bind_ok _ _ _ _ _ (process_command_declines m _ Hc)). split.
      * intros x Hf.
        now rewrite (bind_raised _ _ _ _ _ (history_fault e _ 50 _ x Hf)).
      * intros Hf history.
        rewrite (bind_ok _ _ _ _ _ (history_ok e _ 50 _ Hf)).
        fold history. split.
        -- intros x w' Hp. exact (bind_raised _ _ _ _ _ Hp).
        -- intros p w' x Hp Hr Hm.
           rewrite (bind_ok _ _ _ _ _ Hp), Hr.
           unfold bind. rewrite send_message_cases. cbv zeta. now rewrite Hm.
Qed.

Lemma only_send_failures_are_caught_witness :
  build_message twilio_down (in_group "+15550101" "you never listen") nothing_yet
    = (Ok (inbound (in_group "+15550101" "you never listen") "+15550101"
             "you never listen" 1700000000000), nothing_yet)
  /\ handle_message twilio_down (in_group "+15550101" "you never listen")
       nothing_yet =
     (Ok tt,
      mkWorld [mkDocument "+15550101" "G1" "you never listen" 1700000000000]
        [InsertOne (mkDocument "+15550101" "G1" "you never listen" 1700000000000);
         Find "G1" 50;
         NlpAnalyze "you never listen";
         SentimentAnalyze "you never listen";
         UpdateContext
           (inbound (in_group "+15550101" "you never listen") "+15550101"
              "you never listen" 1700000000000) no_entities tense;
         GetRelevantContext no_entities;
         MessagesCreate "whatsapp:+15550100" response "whatsapp:G1";
         Log ERROR "Failed to send message: HTTP 401 error"]).
Proof.
  split; [reflexivity|].
  pose proof (only_send_failures_are_caught twilio_down
                (in_group "+15550101" "you never listen") nothing_yet)
    as (_ & _ & H).
  destruct (H _ eq_refl) as (_ & H1). clear H.
  destruct (H1 eq_refl) as (_ & H2). clear H1.
  assert (Hn : ~ is_command "you never listen").
  { intros (name & args & (Hp & _)%names_command_split). discriminate. }
  destruct (H2 Hn) as (_ & H3). clear H2.
  destruct (H3 eq_refl) as (_ & H4). clear H3.
  exact (H4 _ _ (Exn "TwilioRestException" "HTTP 401 error")
           eq_refl eq_refl eq_refl).
Defined.

(** C8: the claim as stated fails. Two payloads without a conversation
    identifier, from different senders, are built into messages of one
    conversation, the empty string. *)
Lemma direct_messages_share_conversation :
  direct (alone "+15550101" "hello")
  /\ direct (alone "+15550102" "hi")
  /\ build_message healthy (alone "+15550101" "hello") nothing_yet =
       (Ok (mkMessage "+15550101" "" "hello" 1700000000000 (Some "")),
        nothing_yet)
  /\ build_message healthy (alone "+15550102" "hi") nothing_yet =
       (Ok (mkMessage "+15550102" "" "hi" 1700000000000 (Some "")),
        nothing_yet)
  /\ ~ keyed_by_sender.
Proof.
  split; [reflexivity|]. split; [reflexivity|].
  split; [reflexivity|]. split; [reflexivity|].
  intros Hk.
  refine (Hk healthy (alone "+15550101" "hello") (alone "+15550102" "hi")
            nothing_yet _ _ eq_refl eq_refl eq_refl eq_refl _ eq_refl).
  discriminate.
Qed.

(** C8, amended. A payload without a conversation identifier is built
    into a message whose conversation is the empty string, whoever the
    sender is; the message is stored under that conversation, and when it
    is no command the history is fetched for it. *)
Theorem missing_group_defaults_to_empty (e : env) (d : gmap string string)
    (w : world) (from_ body : string) (t : Z) :
  direct d ->
  d !! "from" = Some from_ ->
  d !! "body" = Some body ->
  datetime_now e = Some t ->
  build_message e d w =
    (Ok (mkMessage from_ "" body t (Some (default "" (d !! "id")))), w)
  /\ (insert_fault e = None -> ~ is_command body ->
      exists evs,
        trace (snd (handle_message e d w)) =
          trace w ++ [InsertOne (mkDocument from_ "" body t); Find "" 50] ++ evs).
Proof.
  intros Hd Hf Hb Ht.
  assert (Hm : build_message e d w =
            (Ok (mkMessage from_ "" body t (Some (default "" (d !! "id")))), w)).
  { rewrite (build_message_ok e d w from_ body t Hf Hb Ht).
    unfold inbound. unfold direct in Hd. now rewrite Hd. }
  split; [exact Hm|].
  intros Hi Hc.
  set (m := mkMessage from_ "" body t (Some (default "" (d !! "id")))) in *.
  rewrite (handle_message_built e d w m Hm).
  rewrite (bind_ok _ _ _ _ _ (store_message_ok e m w Hi)).
  rewrite (bind_ok _ _ _ _ _ (process_command_declines m _ Hc)).
  destruct (find_fault e) as [xf|] eqn:Hfind.
  - rewrite (bind_raised _ _ _ _ _ (history_fault e _ 50 _ xf Hfind)).
    exists []. simpl. now rewrite <- app_assoc.
  - rewrite (bind_ok _ _ _ _ _ (history_ok e _ 50 _ Hfind)).
    match goal with |- context [bind (process_message e ?m ?h) _ ?w0] =>
      destruct (process_message_trace e m h w0) as (o & evs & Hpm & _) end.
    unfold bind at 1. rewrite Hpm. destruct o as [p|x].
    + destruct (should_respond p).
      * unfold bind. rewrite send_message_cases. cbv zeta.
        destruct (messages_create e _ response _); simpl;
          eexists; rewrite <- !app_assoc; simpl; reflexivity.
      * simpl. eexists. rewrite <- !app_assoc. simpl. reflexivity.
    + simpl. eexists. rewrite <- !app_assoc. simpl. reflexivity.
Qed.

Lemma missing_group_defaults_to_empty_witness :
  direct (alone "+15550101" "hello")
  /\ build_message healthy (alone "+15550101" "hello") nothing_yet =
       (Ok (mkMessage "+15550101" "" "hello" 1700000000000
              (Some (default "" (alone "+15550101" "hello" !! "id")))),
        nothing_yet)
  /\ (insert_fault healthy = None -> ~ is_command "hello" ->
      exists evs,
        trace (snd (handle_message healthy (alone "+15550101" "hello") nothing_yet)) =
          trace nothing_yet ++
            [InsertOne (mkDocument "+15550101" "" "hello" 1700000000000);
             Find "" 50] ++ evs).
Proof.
  split; [reflexivity|].
  apply (missing_group_defaults_to_empty healthy (alone "+15550101" "hello")
           nothing_yet "+15550101" "hello" 1700000000000); reflexivity.
Defined.

End Errors.

(** ** Claims on the message store *)

Section History.

Import Spec Stage Scenario.

#[local] Instance newer_first_transitive : Transitive newer_first.
Proof. intros a b c. unfold newer_first. lia. Qed.

#[local] Instance newer_first_total : Total newer_first.
Proof. intros a b. unfold newer_first. lia. Qed.

Lemma sort_newer_first_sorted (c : list document) :
  StronglySorted newer_first (sort_newer_first c).
Proof. apply StronglySorted_merge_sort; apply _. Qed.

Lemma elem_of_sort_newer_first (c : list document) (d : document) :
  d ∈ sort_newer_first c <-> d ∈ c.
Proof. unfold sort_newer_first. now rewrite merge_sort_Permutation. Qed.

Lemma length_sort_newer_first (c : list document) :
  length (sort_newer_first c) = length c.
Proof. unfold sort_newer_first. now rewrite merge_sort_Permutation. Qed.

Lemma cursor_limit_positive (n : Z) (c : list document) :
  (1 <= n)%Z -> cursor_limit n c = take (Z.to_nat n) c.
Proof.
  intros Hn. unfold cursor_limit.
  destruct (Z.eqb_spec n 0) as [->|_]; [lia|].
  now rewrite Z.abs_eq by lia.
Qed.

(** C7: the claim as stated fails. With limit 0 the cursor is not
    limited: both messages of G1 are returned. *)
Lemma limit_zero_is_no_limit :
  get_conversation_history healthy "G1" 0 three_stored =
    (Ok [mkMessage "+15550103" "G1" "well" 30 None;
         mkMessage "+15550101" "G1" "hello" 10 None],
     mkWorld (messages three_stored) [Find "G1" 0])
  /\ ~ history_within_limit.
Proof.
  assert (H : get_conversation_history healthy "G1" 0 three_stored =
    (Ok [mkMessage "+15550103" "G1" "well" 30 None;
         mkMessage "+15550101" "G1" "hello" 10 None],
     mkWorld (messages three_stored) [Find "G1" 0])) by reflexivity.
  split; [exact H|].
  intros Hb. specialize (Hb _ _ _ _ _ _ H). simpl in Hb. lia.
Qed.

(** C7, amended. When the query is answered and the limit is at least 1,
    the history is returned (nothing is raised, the collection is not
    changed): at most [limit] messages, as many as the limit and the
    conversation allow, each the image of a stored document of the
    requested conversation, newest first, and no stored message of the
    conversation that is left out is newer than one returned. For a
    conversation without stored message the history is empty. *)
Theorem history_is_recent_and_bounded (e : env) (g : string) (limit : Z)
    (w : world) :
  find_fault e = None ->
  (1 <= limit)%Z ->
  exists l,
    get_conversation_history e g limit w =
      (Ok l, mkWorld (messages w) (trace w ++ [Find g limit]))
    /\ (Z.of_nat (length l) <= limit)%Z
    /\ length l = min (Z.to_nat limit) (length (find_group g (messages w)))
    /\ Forall (fun m => group m = g) l
    /\ (forall m, m ∈ l ->
          exists d, d ∈ messages w /\ m = message_of_document d)
    /\ newest_first l
    /\ (forall d m, d ∈ messages w -> group_id d = g ->
          message_of_document d ∉ l -> m ∈ l ->
          (doc_timestamp d <= timestamp m)%Z)
    /\ ((forall d, d ∈ messages w -> group_id d <> g) -> l = []).
Proof.
  intros Hf Hl. rewrite (history_ok e g limit w Hf).
  rewrite (cursor_limit_positive limit _ Hl).
  set (c := find_group g (messages w)).
  set (sorted := sort_newer_first c).
  assert (Hc : forall d, d ∈ sorted <-> group_id d = g /\ d ∈ messages w).
  { intros d. unfold sorted. rewrite elem_of_sort_newer_first.
    unfold c, find_group. now rewrite list_elem_of_filter. }
  assert (Htake : forall d, d ∈ take (Z.to_nat limit) sorted -> d ∈ sorted).
  { intros d (i & Hi & _)%elem_of_take. now apply list_elem_of_lookup_2 in Hi. }
  eexists. split; [reflexivity|].
  assert (Hlen : length (message_of_document <$> take (Z.to_nat limit) sorted) =
            min (Z.to_nat limit) (length c)).
  { rewrite length_fmap, length_take. unfold sorted.
    now rewrite length_sort_newer_first. }
  split; [rewrite Hlen; lia|]. split; [exact Hlen|]. split.
  { apply Forall_fmap, Forall_forall. intros d Hd%Htake%Hc. apply Hd. }
  split.
  { intros m (d & -> & Hd%Htake%Hc)%list_elem_of_fmap. exists d. now split. }
  split.
  { unfold newest_first.
    apply (StronglySorted_fmap message_of_document newer_first);
      [intros x y Hxy; exact Hxy|].
    apply (StronglySorted_app_1_l _ _ (drop (Z.to_nat limit) sorted)).
    rewrite take_drop. apply sort_newer_first_sorted. }
  split.
  { intros d m Hd Hg Hout (d' & -> & Hd')%list_elem_of_fmap.
    assert (Hin : d ∈ sorted) by now apply Hc.
    rewrite <- (take_drop (Z.to_nat limit) sorted) in Hin.
    apply elem_of_app in Hin as [Hin|Hin].
    - exfalso. apply Hout. now apply list_elem_of_fmap_2.
    - pose proof (sort_newer_first_sorted c) as Hs. fold sorted in Hs.
      rewrite <- (take_drop (Z.to_nat limit) sorted) in Hs.
      exact (StronglySorted_app_1_elem_of _ _ _ _ _ Hs Hd' Hin). }
  intros Hnone.
  assert (Hnil : sorted = []).
  { destruct sorted as [|d ds] eqn:Hs; [reflexivity|].
    assert (Hd : d ∈ d :: ds) by left.
    apply Hc in Hd as [Hg Hd]. now apply Hnone in Hd. }
  now rewrite Hnil, take_nil.
Qed.

Lemma history_is_recent_and_bounded_witness :
  find_fault healthy = None
  /\ (1 <= 1)%Z
  /\ exists l,
    get_conversation_history healthy "G1" 1 three_stored =
      (Ok l, mkWorld (messages three_stored) (trace three_stored ++ [Find "G1" 1]))
    /\ (Z.of_nat (length l) <= 1)%Z
    /\ length l = min (Z.to_nat 1) (length (find_group "G1" (messages three_stored)))
    /\ Forall (fun m => group m = "G1") l
    /\ (forall m, m ∈ l ->
          exists d, d ∈ messages three_stored /\ m = message_of_document d)
    /\ newest_first l
    /\ (forall d m, d ∈ messages three_stored -> group_id d = "G1" ->
          message_of_document d ∉ l -> m ∈ l ->
          (doc_timestamp d <= timestamp m)%Z)
    /\ ((forall d, d ∈ messages three_stored -> group_id d <> "G1") -> l = []).
Proof.
  split; [reflexivity|]. split; [lia|].
  apply (history_is_recent_and_bounded healthy "G1" 1 three_stored);
    [reflexivity | lia].
Defined.

End History.

(** ** Claims on the sentiment classification *)

Section Sentiment.

Import Spec.

(** Below zero and above zero on the specification of binary64. *)
Lemma SF_below_zero (x n : spec_float) :
  SFltb x n = true -> SFleb n (S754_zero false) = true ->
  SFltb x (S754_zero false) = true.
Proof.
  destruct x as [[]|[]| |[] mx ex], n as [[]|[]| |[] mn en];
    cbn; congruence.
Qed.

Lemma SF_above_zero (x p : spec_float) :
  SFleb (S754_zero false) p = true -> SFltb p x = true ->
  SFltb (S754_zero false) x = true.
Proof.
  destruct x as [[]|[]| |[] mx ex], p as [[]|[]| |[] mp ep];
    cbn; congruence.
Qed.

Lemma SF_not_both_sides (x : spec_float) :
  SFltb x (S754_zero false) = true -> SFltb (S754_zero false) x = true -> False.
Proof. destruct x as [[]|[]| |[] mx ex]; cbn; congruence. Qed.

Lemma SF_zero_not_beside (x : spec_float) :
  SFeqb x (S754_zero false) = true ->
  SFltb x (S754_zero false) = false /\ SFltb (S754_zero false) x = false.
Proof. destruct x as [[]|[]| |[] mx ex]; cbn; split; congruence. Qed.

Lemma float_below_zero (x n : float) :
  (x <? n)%float = true -> (n <=? 0)%float = true -> (x <? 0)%float = true.
Proof.
  rewrite !FloatAxioms.ltb_spec, FloatAxioms.leb_spec. apply SF_below_zero.
Qed.

Lemma float_above_zero (x p : float) :
  (0 <=? p)%float = true -> (p <? x)%float = true -> (0 <? x)%float = true.
Proof.
  rewrite !FloatAxioms.ltb_spec, FloatAxioms.leb_spec. apply SF_above_zero.
Qed.

Lemma float_not_both_sides (x : float) :
  (x <? 0)%float = true -> (0 <? x)%float = true -> False.
Proof. rewrite !FloatAxioms.ltb_spec. apply SF_not_both_sides. Qed.

Lemma float_zero_not_beside (x : float) :
  (x =? 0)%float = true -> (x <? 0)%float = false /\ (0 <? x)%float = false.
Proof.
  rewrite FloatAxioms.eqb_spec, !FloatAxioms.ltb_spec. apply SF_zero_not_beside.
Qed.

(** C6. With the negative threshold at most 0 and the positive one at
    least 0, the classification of any score (any binary64 value, also
    an infinity or a NaN) has exactly one of the three booleans true; a
    score equal to 0 is neutral, a score under the negative threshold is
    negative, and a score over the positive threshold is positive. *)
Theorem classification_is_exclusive (negative positive : float)
    (s magnitude : float) :
  (negative <=? 0)%float = true ->
  (0 <=? positive)%float = true ->
  let r := classify negative positive s magnitude in
  score r = s
  /\ exactly_one (is_positive r) (is_negative r) (is_neutral r) = true
  /\ ((s =? 0)%float = true -> is_neutral r = true)
  /\ ((s <? negative)%float = true -> is_negative r = true)
  /\ ((positive <? s)%float = true -> is_positive r = true)
  /\ (is_negative r = true -> (s <? negative)%float = true)
  /\ (is_positive r = true -> (positive <? s)%float = true).
Proof.
  intros Hn Hp. unfold classify. cbn.
  split; [reflexivity|]. split; [|split; [|repeat split; auto]].
  - destruct (s <? negative)%float eqn:Hneg, (positive <? s)%float eqn:Hpos;
      try reflexivity.
    exfalso. apply (float_not_both_sides s).
    + exact (float_below_zero s negative Hneg Hn).
    + exact (float_above_zero s positive Hp Hpos).
  - intros [Hz1 Hz2]%float_zero_not_beside.
    destruct (s <? negative)%float eqn:Hneg.
    { rewrite (float_below_zero s negative Hneg Hn) in Hz1. discriminate. }
    destruct (positive <? s)%float eqn:Hpos; [|reflexivity].
    rewrite (float_above_zero s positive Hp Hpos) in Hz2. discriminate.
Qed.

Lemma classification_is_exclusive_witness :
  (-0.05 <=? 0)%float = true
  /\ (0 <=? 0.05)%float = true
  /\ classify (-0.05) 0.05 (-0.9) 0.9 =
       mkSentimentResult (-0.9) 0.9 false true false
  /\ exactly_one false true false = true.
Proof.
  split; [reflexivity|]. split; [reflexivity|]. split; [reflexivity|].
  exact (proj1 (proj2 (classification_is_exclusive (-0.05) 0.05 (-0.9) 0.9
                         eq_refl eq_refl))).
Defined.

(** The dataclass itself accepts any three booleans. *)
Lemma sentiment_result_is_unconstrained :
  exactly_one
    (is_positive (mkSentimentResult 0 0 true true true))
    (is_negative (mkSentimentResult 0 0 true true true))
    (is_neutral (mkSentimentResult 0 0 true true true)) = false.
Proof. reflexivity. Qed.

End Sentiment.

(** * Further properties of the code *)

(** ** The message store *)

Section StoreAndHistory.

Import Stage Scenario.

#[local] Existing Instance newer_first_transitive.
#[local] Existing Instance newer_first_total.

Lemma find_group_app (g : string) (c1 c2 : list document) :
  find_group g (c1 ++ c2) = find_group g c1 ++ find_group g c2.
Proof. unfold find_group. apply filter_app. Qed.

Lemma find_group_other (g : string) (d : document) :
  group_id d <> g -> find_group g [d] = [].
Proof.
  intros H. unfold find_group. rewrite filter_cons, filter_nil.
  now rewrite decide_False.
Qed.





(** X2. Storing a message leaves the history of every other conversation
    as it was, for every limit, whether or not the store or the query
    fails. *)
Theorem store_leaves_other_histories (e : env) (m : Message) (w : world)
    (g : string) (limit : Z) :
  g <> group m ->
  fst (get_conversation_history e g limit (snd (store_message e m w))) =
  fst (get_conversation_history e g limit w).
Proof.
  intros Hg.
  destruct (find_fault e) as [x|] eqn:Hf.
  { now rewrite !(history_fault e g limit _ x Hf). }
  rewrite !(history_ok e g limit _ Hf). cbn [fst].
  destruct (insert_fault e) as [x|] eqn:Hi.
  - now rewrite (store_message_fault e m w x Hi).
  - rewrite (store_message_ok e m w Hi). unfold stored. cbn [snd messages].
    rewrite find_group_app, find_group_other, app_nil_r; [reflexivity|].
    simpl. congruence.
Qed.

Lemma store_leaves_other_histories_witness :
  fst (get_conversation_history healthy "G2" 5
         (snd (store_message healthy
                 (mkMessage "+15550104" "G1" "now" 40 None) three_stored))) =
  fst (get_conversation_history healthy "G2" 5 three_stored).
Proof.
  apply (store_leaves_other_histories healthy
           (mkMessage "+15550104" "G1" "now" 40 None) three_stored "G2" 5).
  discriminate.
Defined.



End StoreAndHistory.

(** ** The webhook side of the transport *)

Section WebhookFacts.

Import Webhook Scenario.

(** X4. The transport keeps one handler: after two registrations the
    webhook calls the second callback only, and with the payload under
    'message'. *)
Theorem last_subscription_wins (c1 c2 : callback)
    (handlers : gmap string callback)
    (data : gmap string (gmap string string)) (x : gmap string string)
    (w : world) :
  data !! "message" = Some x ->
  process_webhook
    (subscribe_to_messages c2 (subscribe_to_messages c1 handlers)) data w =
  call c2 x w.
Proof.
  intros Hx. unfold process_webhook, subscribe_to_messages.
  now rewrite lookup_insert_eq, Hx.
Qed.

Lemma last_subscription_wins_witness :
  process_webhook
    (subscribe_to_messages (Function (fun _ => emit (Log INFO "second")))
       (subscribe_to_messages (Function (fun _ => emit (Log INFO "first"))) ∅))
    {["message" := in_group "+15550101" "hello"]} nothing_yet =
  (Ok tt, mkWorld [] [Log INFO "second"]).
Proof.
  rewrite (last_subscription_wins _ _ ∅ _ (in_group "+15550101" "hello"));
    reflexivity.
Defined.

(** X5. Without a registered handler, or for data without a 'message'
    entry, the webhook does nothing and does not raise. *)
Theorem process_webhook_without_handler_or_message
    (handlers : gmap string callback)
    (data : gmap string (gmap string string)) (w : world) :
  handlers !! "message" = None \/ data !! "message" = None ->
  process_webhook handlers data w = (Ok tt, w).
Proof.
  intros [H|H]; unfold process_webhook; rewrite H;
    [|destruct (handlers !! "message")]; reflexivity.
Qed.

Lemma process_webhook_without_handler_or_message_witness :
  process_webhook ∅ {["message" := in_group "+15550101" "hello"]} nothing_yet
    = (Ok tt, nothing_yet)
  /\ process_webhook
       (subscribe_to_messages (Function (fun _ => emit (Log INFO "called"))) ∅)
       {["status" := in_group "+15550101" "hello"]} nothing_yet
    = (Ok tt, nothing_yet).
Proof.
  split; apply process_webhook_without_handler_or_message;
    [left | right]; reflexivity.
Defined.

(** X6. [start] registers [handle_message], which is a coroutine
    function, and the webhook calls the handler without awaiting it: for
    the handlers [start] leaves, whatever the data and however long the
    loop has run, [process_webhook] stores nothing, analyses nothing and
    sends nothing. *)
Theorem webhook_never_runs_the_pipeline (e : env)
    (handlers : gmap string callback) (fuel : nat)
    (data : gmap string (gmap string string)) (w : world) :
  exists registered w1,
    start e handlers fuel w = (Ok (registered, None), w1)
    /\ messages w1 = messages w
    /\ trace w1 = trace w ++
         [Log INFO "Starting LoveBot";
          Log INFO "Initializing WhatsApp Business API connection"]
    /\ registered !! "message" = Some (CoroutineFunction (handle_message e))
    /\ forall w2, process_webhook registered data w2 = (Ok tt, w2).
Proof.
  assert (Hk : forall n w0, keep_running n w0 = (Ok None, w0)).
  { induction n as [|n IH]; intros w0; [reflexivity | exact (IH w0)]. }
  eexists _, _. split.
  { unfold start, initialize, bind. cbn. rewrite Hk. reflexivity. }
  split; [reflexivity|]. split; [cbn; now rewrite <- app_assoc|].
  split; [apply lookup_insert_eq|].
  intros w2. unfold process_webhook, subscribe_to_messages.
  rewrite lookup_insert_eq. now destruct (data !! "message").
Qed.

End WebhookFacts.

(** ** The pipeline as a whole *)

Section PipelineFacts.

Import Spec Stage Scenario Calls.

Variable e : env.

(** [process_message], one case per call that may raise. *)
Lemma process_message_cases (m : Message) (h : list Message) (w : world) :
  process_message e m h w =
    let t1 := trace w ++ [NlpAnalyze (content m)] in
    match nlp_analyze e (content m) with
    | Raised x => (Raised x, mkWorld (messages w) t1)
    | Ok n =>
        let t2 := t1 ++ [SentimentAnalyze (content m)] in
        match sentiment_analyze e (content m) with
        | Raised x => (Raised x, mkWorld (messages w) t2)
        | Ok s =>
            let t3 := t2 ++ [UpdateContext m n s] in
            match update_context e t2 m n s with
            | Raised x => (Raised x, mkWorld (messages w) t3)
            | Ok _ =>
                let t4 := t3 ++ [GetRelevantContext n] in
                match get_relevant_context e t3 n with
                | Raised x => (Raised x, mkWorld (messages w) t4)
                | Ok r => (Ok (mkProcessedMessage m n s r), mkWorld (messages w) t4)
                end
            end
        end
    end.
Proof.
  unfold process_message, bind, lift, calls, emit, ret. cbn.
  destruct (nlp_analyze e (content m)); [|reflexivity].
  destruct (sentiment_analyze e (content m)); cbn; [|reflexivity].
  destruct (update_context e _ m a a0); cbn; [|reflexivity].
  now destruct (get_relevant_context e _ a).
Qed.

Lemma since_app (w : world) ms evs :
  since w (mkWorld ms (trace w ++ evs)) = evs.
Proof. unfold since. cbn. apply drop_app_length. Qed.

Lemma since_same (w : world) : since w w = [].
Proof. unfold since. apply drop_all. Qed.

(** What follows the command check: the world it ends in. The collection
    is as before, and a call to [messages.create] says that the analysis
    went through with a score under the threshold. *)
Lemma moderation_outcome (m : Message) (w : world) :
  exists o evs,
    bind (get_conversation_history e (group m) 50) (fun history =>
    bind (process_message e m history) (fun processed =>
      if should_respond processed then
        bind (send_message e (group m) response) (fun _ => ret tt)
      else ret tt)) w = (o, mkWorld (messages w) (trace w ++ evs))
    /\ length (filter (fun ev => is_create ev = true) evs) <= 1
    /\ (forall from_ text to, MessagesCreate from_ text to ∈ evs ->
          find_fault e = None
          /\ o = Ok tt
          /\ (exists s, sentiment_analyze e (content m) = Ok s
                        /\ (score s <? -0.7)%float = true)
          /\ from_ = "whatsapp:" +:+ str_opt (phone_number e)
          /\ text = response
          /\ to = "whatsapp:" +:+ group m).
Proof.
  assert (Hno : forall (evs : list event),
            Forall (fun ev => is_create ev = false) evs ->
            length (filter (fun ev => is_create ev = true) evs) <= 1
            /\ forall from_ text to, MessagesCreate from_ text to ∉ evs).
  { intros evs Hall. split.
    - induction Hall as [|ev evs Hev _ IH]; [cbn; lia|].
      rewrite filter_cons, decide_False by congruence. exact IH.
    - intros f t o Hin. rewrite Forall_forall in Hall.
      now specialize (Hall _ Hin). }
  destruct (find_fault e) as [xf|] eqn:Hf.
  { rewrite (bind_raised _ _ _ _ _ (history_fault e _ 50 w xf Hf)).
    eexists _, [_]. split; [reflexivity|].
    destruct (Hno [Find (group m) 50]) as [H1 H2]; [repeat constructor|].
    split; [exact H1|]. intros f t o Hin. now apply H2 in Hin. }
  rewrite (bind_ok _ _ _ _ _ (history_ok e _ 50 w Hf)).
  unfold bind at 1. rewrite process_message_cases. cbv zeta. cbn [messages trace].
  destruct (nlp_analyze e (content m)) as [n|x].
  2:{ eexists _, [_; _]. rewrite <- !app_assoc. split; [reflexivity|].
      destruct (Hno [Find (group m) 50; NlpAnalyze (content m)]) as [H1 H2];
        [repeat constructor|].
      split; [exact H1|]. intros f t o Hin. now apply H2 in Hin. }
  destruct (sentiment_analyze e (content m)) as [s|x] eqn:Hs.
  2:{ eexists _, [_; _; _]. rewrite <- !app_assoc. split; [reflexivity|].
      destruct (Hno [Find (group m) 50; NlpAnalyze (content m);
                     SentimentAnalyze (content m)]) as [H1 H2];
        [repeat constructor|].
      split; [exact H1|]. intros f t o Hin. now apply H2 in Hin. }
  destruct (update_context e _ m n s) as [[]|x].
  2:{ eexists _, [_; _; _; _]. rewrite <- !app_assoc. split; [reflexivity|].
      destruct (Hno [Find (group m) 50; NlpAnalyze (content m);
                     SentimentAnalyze (content m); UpdateContext m n s])
        as [H1 H2]; [repeat constructor|].
      split; [exact H1|]. intros f t o Hin. now apply H2 in Hin. }
  destruct (get_relevant_context e _ n) as [r|x].
  2:{ eexists _, [_; _; _; _; _]. rewrite <- !app_assoc. split; [reflexivity|].
      destruct (Hno [Find (group m) 50; NlpAnalyze (content m);
                     SentimentAnalyze (content m); UpdateContext m n s;
                     GetRelevantContext n]) as [H1 H2]; [repeat constructor|].
      split; [exact H1|]. intros f t o Hin. now apply H2 in Hin. }
  rewrite should_respond_score. cbn [sentiment score].
  destruct (score s <? -0.7)%float eqn:Hlow.
  2:{ eexists _, [_; _; _; _; _]. rewrite <- !app_assoc. split; [reflexivity|].
      destruct (Hno [Find (group m) 50; NlpAnalyze (content m);
                     SentimentAnalyze (content m); UpdateContext m n s;
                     GetRelevantContext n]) as [H1 H2]; [repeat constructor|].
      split; [exact H1|]. intros f t o Hin. now apply H2 in Hin. }
  unfold bind. rewrite send_message_cases. cbv zeta. cbn [messages trace].
  destruct (messages_create e _ response _) as [sid|x];
    (eexists _, [_; _; _; _; _; _; _]; rewrite <- !app_assoc;
     split; [reflexivity|]; split; [vm_compute; lia|];
     intros f t o Hin; apply list_elem_of_In in Hin; cbn in Hin;
     repeat (destruct Hin as [Hin|Hin]; try discriminate Hin);
     [|contradiction];
     injection Hin as <- <- <-;
     split; [reflexivity|]; split; [reflexivity|];
     split; [exists s; now split|]; now repeat split).
Qed.

(** The whole of [handle_message]: the world it ends in. *)
Lemma handle_message_outcome (d : gmap string string) (w : world) :
  exists o docs evs,
    handle_message e d w = (o, mkWorld (messages w ++ docs) (trace w ++ evs))
    /\ (forall m, build_message e d w = (Ok m, w) -> insert_fault e = None ->
          docs = [document_of_message m])
    /\ ((forall m, build_message e d w <> (Ok m, w)) \/ insert_fault e <> None ->
          docs = [])
    /\ length (filter (fun ev => is_create ev = true) evs) <= 1
    /\ (forall from_ text to, MessagesCreate from_ text to ∈ evs ->
          exists m s,
            build_message e d w = (Ok m, w)
            /\ insert_fault e = None
            /\ find_fault e = None
            /\ ~ is_command (content m)
            /\ sentiment_analyze e (content m) = Ok s
            /\ (score s <? -0.7)%float = true
            /\ o = Ok tt
            /\ from_ = "whatsapp:" +:+ str_opt (phone_number e)
            /\ text = response
            /\ to = "whatsapp:" +:+ group m).
Proof.
  pose proof (build_message_world e d w) as Hw.
  destruct (build_message e d w) as [[m|x0] w0] eqn:Hb; cbn in Hw; subst w0.
  2:{ rewrite (handle_message_not_built e d w x0 Hb).
      exists (Raised x0), [], []. rewrite !app_nil_r.
      split; [now destruct w|]. split; [intros m [=]|].
      split; [reflexivity|]. split; [vm_compute; lia|].
      intros f t o Hin. now apply not_elem_of_nil in Hin. }
  rewrite (handle_message_built e d w m Hb).
  destruct (insert_fault e) as [xi|] eqn:Hi.
  { rewrite (bind_raised _ _ _ _ _ (store_message_fault e m w xi Hi)).
    exists (Raised xi), [], [InsertOne (document_of_message m)].
    rewrite app_nil_r. split; [reflexivity|]. split; [intros ? _ [=]|].
    split; [reflexivity|]. split; [vm_compute; lia|].
    intros f t o Hin. apply list_elem_of_singleton in Hin. discriminate. }
  rewrite (bind_ok _ _ _ _ _ (store_message_ok e m w Hi)).
  destruct (is_command_or_not (content m)) as [(name & args & Hc)|Hc].
  { rewrite (bind_ok _ _ _ _ _ (process_command_enters m _ name args Hc)).
    exists (Ok tt), [document_of_message m],
      [InsertOne (document_of_message m); Handler name args m].
    cbn. rewrite <- app_assoc. split; [reflexivity|].
    split; [now intros m' [= <-] _|].
    split; [intros [H|H]; [now specialize (H m) | congruence]|].
    split; [vm_compute; lia|].
    intros f t o Hin. apply list_elem_of_In in Hin. cbn in Hin.
    repeat (destruct Hin as [Hin|Hin]; try discriminate Hin). contradiction. }
  rewrite (bind_ok _ _ _ _ _ (process_command_declines m _ Hc)).
  destruct (moderation_outcome m (stored m w)) as (o & evs & -> & Hone & Hsend).
  exists o, [document_of_message m], (InsertOne (document_of_message m) :: evs).
  unfold stored. cbn [messages trace]. rewrite <- app_assoc. cbn [app].
  split; [reflexivity|]. split; [now intros m' [= <-] _|].
  split; [intros [H|H]; [now specialize (H m) | congruence]|].
  split; [rewrite filter_cons, decide_False by (cbn; congruence); exact Hone|].
  intros f t o' [Hin|Hin]%elem_of_cons; [discriminate|].
  destruct (Hsend f t o' Hin) as (Hf & Ho & (s & Hs & Hlow) & -> & -> & ->).
  exists m, s. now repeat split.
Qed.

End PipelineFacts.

Section PipelineClaims.

Import Spec Stage Scenario Calls.

(** X7. [handle_message] calls [messages.create] at most once, and only
    for a message that was built and stored, that is no command, whose
    history was fetched, and whose content the analyzer scored strictly
    under -0.7; the text is the fixed response and the recipient is the
    conversation of the message. [handle_message] then returns normally,
    whatever Twilio answered. *)
Theorem intervention_only_below_threshold (e : env)
    (d : gmap string string) (w : world) (from_ text to : string) :
  MessagesCreate from_ text to ∈ since w (snd (handle_message e d w)) ->
  length (filter (fun ev => is_create ev = true)
            (since w (snd (handle_message e d w)))) = 1
  /\ exists m s,
       build_message e d w = (Ok m, w)
       /\ insert_fault e = None
       /\ find_fault e = None
       /\ ~ is_command (content m)
       /\ sentiment_analyze e (content m) = Ok s
       /\ (score s <? -0.7)%float = true
       /\ fst (handle_message e d w) = Ok tt
       /\ from_ = "whatsapp:" +:+ str_opt (phone_number e)
       /\ text = response
       /\ to = "whatsapp:" +:+ group m.
Proof.
  destruct (handle_message_outcome e d w)
    as (o & docs & evs & -> & _ & _ & Hone & Hsend).
  cbn [snd fst]. rewrite since_app. intros Hin. split.
  - assert (Hpos : 0 < length (filter (fun ev => is_create ev = true) evs)).
    { assert (Hf : MessagesCreate from_ text to
                     ∈ filter (fun ev => is_create ev = true) evs)
        by now apply list_elem_of_filter.
      destruct (filter _ evs); [now apply not_elem_of_nil in Hf | cbn; lia]. }
    lia.
  - destruct (Hsend _ _ _ Hin) as (m & s & H). exists m, s. exact H.
Qed.

Lemma intervention_only_below_threshold_witness :
  MessagesCreate "whatsapp:+15550100" response "whatsapp:G1"
    ∈ since nothing_yet
        (snd (handle_message healthy
                (in_group "+15550101" "you never listen") nothing_yet))
  /\ exists m s,
       build_message healthy (in_group "+15550101" "you never listen")
         nothing_yet = (Ok m, nothing_yet)
       /\ sentiment_analyze healthy (content m) = Ok s
       /\ (score s <? -0.7)%float = true.
Proof.
  assert (H : MessagesCreate "whatsapp:+15550100" response "whatsapp:G1"
    ∈ since nothing_yet
        (snd (handle_message healthy
                (in_group "+15550101" "you never listen") nothing_yet))).
  { vm_compute. do 6 right. left. }
  split; [exact H|].
  destruct (intervention_only_below_threshold healthy _ _ _ _ _ H)
    as (_ & m & s & Hb & _ & _ & _ & Hs & Hlow & _).
  exists m, s. now repeat split.
Defined.

(** X8. A message that is built is stored exactly once, also when it is a
    command, and also when the query, the analysis or the transport
    fails afterwards; when the message is not built or the insertion
    fails, the collection is left as it was. Nothing else is ever
    written. *)
Theorem built_message_is_stored_once (e : env) (d : gmap string string)
    (w : world) :
  (forall m, build_message e d w = (Ok m, w) -> insert_fault e = None ->
     messages (snd (handle_message e d w)) =
       messages w ++ [document_of_message m])
  /\ ((forall m, build_message e d w <> (Ok m, w)) \/ insert_fault e <> None ->
      messages (snd (handle_message e d w)) = messages w).
Proof.
  destruct (handle_message_outcome e d w)
    as (o & docs & evs & -> & Hyes & Hno & _).
  cbn [snd messages]. split.
  - intros m Hb Hi. now rewrite (Hyes m Hb Hi).
  - intros H. now rewrite (Hno H), app_nil_r.
Qed.

Lemma built_message_is_stored_once_witness :
  messages (snd (handle_message find_down
                   (in_group "+15550101" "#lovebot help") three_stored)) =
    messages three_stored
      ++ [mkDocument "+15550101" "G1" "#lovebot help" 1700000000000]
  /\ messages (snd (handle_message store_down
                      (in_group "+15550101" "hello") three_stored)) =
    messages three_stored.
Proof.
  split.
  - apply (proj1 (built_message_is_stored_once find_down
                    (in_group "+15550101" "#lovebot help") three_stored)
             (inbound (in_group "+15550101" "#lovebot help") "+15550101"
                "#lovebot help" 1700000000000)); reflexivity.
  - apply (proj2 (built_message_is_stored_once store_down
                    (in_group "+15550101" "hello") three_stored)).
    right. discriminate.
Defined.

End PipelineClaims.

(** ** What the pipeline does not read *)

Section Independence.

Import Spec Stage Calls.

Lemma alike_ret {A} (a : A) : alike (ret a) (ret a).
Proof. intros w1 w2 H. now split. Qed.

Lemma alike_bind {A B} (c1 c2 : M A) (k1 k2 : A -> M B) :
  alike c1 c2 -> (forall a, alike (k1 a) (k2 a)) ->
  alike (bind c1 k1) (bind c2 k2).
Proof.
  intros Hc Hk w1 w2 Hw. unfold bind.
  destruct (Hc w1 w2 Hw) as [Ho Ht].
  destruct (c1 w1) as [[a1|x1] w1'], (c2 w2) as [[a2|x2] w2'];
    cbn in *; try discriminate.
  - injection Ho as <-. now apply Hk.
  - injection Ho as ->. now split.
Qed.

Lemma alike_bind_value {A B} (c1 c2 : M A) (k1 k2 : A -> M B) :
  alike_but_value c1 c2 -> (forall a1 a2, alike (k1 a1) (k2 a2)) ->
  alike (bind c1 k1) (bind c2 k2).
Proof.
  intros Hc Hk w1 w2 Hw. unfold bind.
  destruct (Hc w1 w2 Hw) as [Ht Ho].
  destruct (c1 w1) as [[a1|x1] w1'], (c2 w2) as [[a2|x2] w2'];
    cbn in *; try contradiction.
  - now apply Hk.
  - subst. now split.
Qed.

Variable e : env.

Lemma alike_build_message d : alike (build_message e d) (build_message e d).
Proof.
  intros w1 w2 Hw. unfold build_message, bind, subscript, now, ret, raise.
  destruct (d !! "from"); [|now split].
  destruct (d !! "body"); [|now split].
  now destruct (datetime_now e).
Qed.

Lemma alike_store_message m : alike (store_message e m) (store_message e m).
Proof.
  intros w1 w2 Hw. destruct (insert_fault e) as [x|] eqn:Hi.
  - rewrite !(store_message_fault e m _ x Hi). cbn. now rewrite Hw.
  - rewrite !(store_message_ok e m _ Hi). unfold stored. cbn. now rewrite Hw.
Qed.

Lemma alike_process_command m : alike (process_command m) (process_command m).
Proof.
  intros w1 w2 Hw. rewrite !process_command_cases.
  destruct (startswith "#lovebot" (content m)); [|now split].
  destruct (split " " _); [now split|].
  destruct (decide _); cbn; [now rewrite Hw | now split].
Qed.

Lemma alike_history g limit :
  alike_but_value (get_conversation_history e g limit)
                  (get_conversation_history e g limit).
Proof.
  intros w1 w2 Hw. destruct (find_fault e) as [x|] eqn:Hf.
  - rewrite !(history_fault e g limit _ x Hf). cbn. now rewrite Hw.
  - rewrite !(history_ok e g limit _ Hf). cbn. now rewrite Hw.
Qed.

(** The analysis does not read the history it is given. *)
Lemma alike_process_message m h1 h2 :
  alike (process_message e m h1) (process_message e m h2).
Proof.
  intros w1 w2 Hw. rewrite !process_message_cases. cbv zeta. rewrite Hw.
  destruct (nlp_analyze e (content m)); [|now split].
  destruct (sentiment_analyze e (content m)); [|now split].
  destruct (update_context e _ m a a0); [|now split].
  destruct (get_relevant_context e _ a); now split.
Qed.

Lemma alike_send_message recipient text :
  alike (send_message e recipient text) (send_message e recipient text).
Proof.
  intros w1 w2 Hw. rewrite !send_message_cases. cbv zeta.
  destruct (messages_create e _ text _); cbn; now rewrite Hw.
Qed.

(** X9. What [handle_message] returns or raises, and every call it makes
    (what is inserted, which handler is entered, what is analysed, what
    is sent and logged), is the same whatever the collection holds: the
    history fetched from the store is passed to the analysis and never
    read. *)
Theorem stored_history_is_never_read (d : gmap string string)
    (stored1 stored2 : list document) (calls : list event) :
  fst (handle_message e d (mkWorld stored1 calls)) =
    fst (handle_message e d (mkWorld stored2 calls))
  /\ trace (snd (handle_message e d (mkWorld stored1 calls))) =
     trace (snd (handle_message e d (mkWorld stored2 calls))).
Proof.
  assert (H : alike (handle_message e d) (handle_message e d)).
  { unfold handle_message.
    apply alike_bind; [apply alike_build_message|]. intros m.
    apply alike_bind; [apply alike_store_message|]. intros _.
    apply alike_bind; [apply alike_process_command|]. intros [|].
    { apply alike_ret. }
    apply alike_bind_value; [apply alike_history|]. intros h1 h2.
    apply alike_bind; [apply alike_process_message|]. intros p.
    destruct (should_respond p); [|apply alike_ret].
    apply alike_bind; [apply alike_send_message|]. intros _.
    apply alike_ret. }
  now apply H.
Qed.

End Independence.

(** ** The command line *)

Section CommandLine.

Import Spec Scenario Calls.

Lemma isspace_lower_char (c : ascii) : isspace (lower_char c) = isspace c.
Proof. destruct c as [[] [] [] [] [] [] [] []]; reflexivity. Qed.

Lemma space_lower_char (c : ascii) :
  Ascii.eqb (lower_char c) " " = Ascii.eqb c " ".
Proof. destruct c as [[] [] [] [] [] [] [] []]; reflexivity. Qed.

Lemma lower_char_idem (c : ascii) : lower_char (lower_char c) = lower_char c.
Proof. destruct c as [[] [] [] [] [] [] [] []]; reflexivity. Qed.

Lemma lower_idem (s : string) : lower (lower s) = lower s.
Proof.
  induction s as [|c s IH]; [reflexivity|].
  cbn. now rewrite lower_char_idem, IH.
Qed.

Lemma lower_lstrip (s : string) : lstrip (lower s) = lower (lstrip s).
Proof.
  induction s as [|c s IH]; [reflexivity|].
  cbn. rewrite isspace_lower_char. now destruct (isspace c).
Qed.

Lemma lower_rstrip (s : string) : rstrip (lower s) = lower (rstrip s).
Proof.
  induction s as [|c s IH]; [reflexivity|].
  cbn. rewrite IH, isspace_lower_char.
  destruct (rstrip s); cbn; [now destruct (isspace c) | reflexivity].
Qed.

Lemma lower_strip (s : string) : strip (lower s) = lower (strip s).
Proof. unfold strip. now rewrite lower_lstrip, lower_rstrip. Qed.

Lemma lower_split (s : string) :
  split " " (lower s) = lower <$> split " " s.
Proof.
  induction s as [|c s IH]; [reflexivity|].
  cbn. rewrite space_lower_char, IH.
  destruct (Ascii.eqb c " "); [reflexivity|].
  pose proof (split_not_nil " " s) as Hne.
  now destruct (split " " s).
Qed.

Lemma lstrip_spaces (l s : string) :
  Forall (fun c => isspace c = true) (list_ascii_of_string l) ->
  lstrip (l +:+ s) = lstrip s.
Proof.
  induction l as [|c l IH]; cbn; [reflexivity|].
  intros [Hc Hl]%Forall_cons. rewrite append_cons. cbn. rewrite Hc. now apply IH.
Qed.

Lemma rstrip_only_spaces (r : string) :
  Forall (fun c => isspace c = true) (list_ascii_of_string r) ->
  rstrip r = EmptyString.
Proof.
  induction r as [|c r IH]; cbn; [reflexivity|].
  intros [Hc Hr]%Forall_cons. now rewrite (IH Hr), Hc.
Qed.

Lemma rstrip_spaces (s r : string) :
  Forall (fun c => isspace c = true) (list_ascii_of_string r) ->
  rstrip (s +:+ r) = rstrip s.
Proof.
  intros Hr. induction s as [|c s IH].
  - rewrite append_nil. now apply rstrip_only_spaces.
  - rewrite append_cons. cbn. now rewrite IH.
Qed.

Lemma lstrip_append (s r : string) :
  lstrip (s +:+ r) =
    match lstrip s with
    | EmptyString => lstrip r
    | t => t +:+ r
    end.
Proof.
  induction s as [|c s IH]; [now rewrite append_nil|].
  rewrite append_cons. cbn. destruct (isspace c); [exact IH | reflexivity].
Qed.

Lemma strip_spaces (l s r : string) :
  Forall (fun c => isspace c = true) (list_ascii_of_string l) ->
  Forall (fun c => isspace c = true) (list_ascii_of_string r) ->
  strip (l +:+ s +:+ r) = strip s.
Proof.
  intros Hl Hr. unfold strip. rewrite (lstrip_spaces l _ Hl), lstrip_append.
  destruct (lstrip s) as [|c t] eqn:Hs.
  - cbn. rewrite (rstrip_only_spaces (lstrip r)); [reflexivity|].
    destruct (lstrip_spec r) as (l' & Heq & _ & _).
    rewrite Heq in Hr.
    clear -Hr. induction l' as [|c l' IH]; [exact Hr|].
    rewrite append_cons in Hr. cbn in Hr. apply Forall_cons in Hr as [_ Hr].
    now apply IH.
  - now apply rstrip_spaces.
Qed.

(** The handler a run of [process_command] entered, if any. *)
Lemma process_command_entered (m : Message) (w : world) name args :
  Handler name args m ∈ since w (snd (process_command m w)) <->
  startswith "#lovebot" (content m) = true
  /\ exists tok, split " " (strip (slice_from 8 (content m))) = tok :: args
       /\ lower tok = name /\ name ∈ command_names.
Proof.
  rewrite process_command_cases.
  destruct (startswith "#lovebot" (content m)).
  2:{ cbn. rewrite since_same. split; [intros H; now apply not_elem_of_nil in H|].
      intros [? _]. discriminate. }
  destruct (split " " _) as [|tok args'].
  { cbn. rewrite since_same. split; [intros H; now apply not_elem_of_nil in H|].
    intros (_ & ? & ? & _). discriminate. }
  destruct (decide (lower tok ∈ command_names)) as [Hin|Hin]; cbn.
  - rewrite since_app, list_elem_of_singleton. split.
    + intros [= -> ->]. split; [reflexivity|]. now exists tok.
    + intros (_ & tok' & [= <- <-] & <- & _). reflexivity.
  - rewrite since_same. split; [intros H; now apply not_elem_of_nil in H|].
    intros (_ & tok' & [= <- <-] & <- & H). contradiction.
Qed.

(** The result says whether a handler was entered. *)
Lemma process_command_true (m : Message) (w : world) :
  fst (process_command m w) = Ok true <->
  exists name args,
    Handler name args m ∈ since w (snd (process_command m w)).
Proof.
  split.
  - rewrite process_command_cases.
    destruct (startswith "#lovebot" (content m)); [|discriminate].
    destruct (split " " _) as [|tok args']; [discriminate|].
    destruct (decide _); [|discriminate]. intros _.
    eexists _, _. cbn. rewrite since_app. left.
  - intros (name & args & (Hp & tok & Hs & <- & Hin)%process_command_entered).
    rewrite process_command_cases, Hp, Hs. now rewrite decide_True.
Qed.

Lemma process_command_bool (m : Message) (w : world) :
  exists b, fst (process_command m w) = Ok b.
Proof.
  rewrite process_command_cases.
  destruct (startswith "#lovebot" (content m)); [|now eexists].
  destruct (split " " _); [now eexists|].
  destruct (decide _); now eexists.
Qed.

(** X10. Nothing of a command line is lost: when a handler is entered,
    the token it was chosen by and its arguments, joined by single
    spaces, are the content after the prefix with the surrounding white
    space trimmed; no argument contains a space, and two spaces in a row
    give an empty argument between them. *)
Theorem command_line_is_split_without_loss (m : Message) (w : world)
    (name : string) (args : list string) :
  Handler name args m ∈ since w (snd (process_command m w)) ->
  exists tok,
    lower tok = name
    /\ join " " (tok :: args) = strip (slice_from 8 (content m))
    /\ Forall (fun a => ~ In " "%char (list_ascii_of_string a)) (tok :: args)
    /\ fst (process_command m w) = Ok true.
Proof.
  intros H. pose proof H as (Hp & tok & Hs & Hl & Hin)%process_command_entered.
  exists tok. split; [exact Hl|]. split; [|split].
  - rewrite <- Hs. apply join_split.
  - apply Forall_forall. intros a Ha. rewrite <- Hs in Ha.
    now apply split_no_sep in Ha.
  - apply process_command_true. now exists name, args.
Qed.

Lemma command_line_is_split_without_loss_witness :
  Handler "feedback" ["too"; ""; "Loud"]
    (mkMessage "+15550101" "G1" "#lovebot Feedback too  Loud " 0 None)
    ∈ since nothing_yet
        (snd (process_command
                (mkMessage "+15550101" "G1" "#lovebot Feedback too  Loud " 0 None)
                nothing_yet))
  /\ exists tok,
       lower tok = "feedback"
       /\ join " " (tok :: ["too"; ""; "Loud"]) = "Feedback too  Loud".
Proof.
  assert (H : Handler "feedback" ["too"; ""; "Loud"]
    (mkMessage "+15550101" "G1" "#lovebot Feedback too  Loud " 0 None)
    ∈ since nothing_yet
        (snd (process_command
                (mkMessage "+15550101" "G1" "#lovebot Feedback too  Loud " 0 None)
                nothing_yet))) by (vm_compute; left).
  split; [exact H|].
  destruct (command_line_is_split_without_loss _ _ _ _ H)
    as (tok & Hl & Hj & _).
  exists tok. split; [exact Hl | exact Hj].
Defined.

(** X11. After the prefix, case does not matter for the choice of the
    handler: putting everything after "#lovebot" in lower case gives the
    same result and the same handler, with the arguments in lower case. *)
Theorem command_choice_ignores_case (m m' : Message) (w w' : world)
    (rest : string) :
  content m = "#lovebot" +:+ rest ->
  content m' = "#lovebot" +:+ lower rest ->
  fst (process_command m w) = fst (process_command m' w')
  /\ forall name args,
       Handler name args m ∈ since w (snd (process_command m w)) ->
       Handler name (lower <$> args) m'
         ∈ since w' (snd (process_command m' w')).
Proof.
  intros Hm Hm'.
  assert (Hp : startswith "#lovebot" (content m) = true)
    by (apply startswith_spec; now exists rest).
  assert (Hp' : startswith "#lovebot" (content m') = true)
    by (apply startswith_spec; now exists (lower rest)).
  assert (Hs : split " " (strip (slice_from 8 (content m')))
               = lower <$> split " " (strip (slice_from 8 (content m)))).
  { rewrite Hm, Hm'. change 8 with (String.length "#lovebot").
    now rewrite !slice_from_app, lower_strip, lower_split. }
  assert (Hargs : forall name args,
       Handler name args m ∈ since w (snd (process_command m w)) ->
       Handler name (lower <$> args) m'
         ∈ since w' (snd (process_command m' w'))).
  { intros name args (_ & tok & Ht & Hl & Hin)%process_command_entered.
    apply process_command_entered. split; [exact Hp'|].
    exists (lower tok). rewrite Hs, Ht. split; [reflexivity|].
    rewrite lower_idem. now split. }
  split; [|exact Hargs].
  destruct (process_command_bool m w) as [[|] Hb]; rewrite Hb.
  - apply process_command_true in Hb as (name & args & Hb).
    symmetry. apply process_command_true. eauto.
  - destruct (process_command_bool m' w') as [[|] Hb']; rewrite Hb';
      [|reflexivity].
    exfalso.
    apply process_command_true in Hb'
      as (name & args' & (_ & tok' & Ht' & Hl' & Hin')%process_command_entered).
    rewrite Hs in Ht'.
    destruct (split " " (strip (slice_from 8 (content m)))) as [|tok args] eqn:Ht;
      [discriminate|].
    injection Ht' as <- <-. rewrite lower_idem in Hl'.
    assert (Hyes : fst (process_command m w) = Ok true).
    { apply process_command_true. exists name, args.
      apply process_command_entered. split; [exact Hp|]. now exists tok. }
    congruence.
Qed.

Lemma command_choice_ignores_case_witness :
  fst (process_command (mkMessage "+15550101" "G1" "#lovebot PAUSE Now" 0 None)
         nothing_yet) =
  fst (process_command (mkMessage "+15550101" "G1" "#lovebot pause now" 0 None)
         nothing_yet).
Proof.
  exact (proj1 (command_choice_ignores_case
                  (mkMessage "+15550101" "G1" "#lovebot PAUSE Now" 0 None)
                  (mkMessage "+15550101" "G1" "#lovebot pause now" 0 None)
                  nothing_yet nothing_yet " PAUSE Now" eq_refl eq_refl)).
Defined.

(** X12. White space between the prefix and the token, and at the end of
    the content, is ignored: the same handler is entered with the same
    arguments. *)
Theorem command_ignores_surrounding_space (m m' : Message) (w w' : world)
    (l rest r : string) :
  Forall (fun c => isspace c = true) (list_ascii_of_string l) ->
  Forall (fun c => isspace c = true) (list_ascii_of_string r) ->
  content m = "#lovebot" +:+ l +:+ rest +:+ r ->
  content m' = "#lovebot" +:+ rest ->
  fst (process_command m w) = fst (process_command m' w')
  /\ forall name args,
       Handler name args m ∈ since w (snd (process_command m w)) <->
       Handler name args m' ∈ since w' (snd (process_command m' w')).
Proof.
  intros Hl Hr Hm Hm'.
  assert (Hs : strip (slice_from 8 (content m))
               = strip (slice_from 8 (content m'))).
  { rewrite Hm, Hm'. change 8 with (String.length "#lovebot").
    rewrite !slice_from_app. now apply strip_spaces. }
  assert (Hp : startswith "#lovebot" (content m) = true)
    by (apply startswith_spec; eexists; exact Hm).
  assert (Hp' : startswith "#lovebot" (content m') = true)
    by (apply startswith_spec; eexists; exact Hm').
  assert (Hiff : forall name args,
       Handler name args m ∈ since w (snd (process_command m w)) <->
       Handler name args m' ∈ since w' (snd (process_command m' w'))).
  { intros name args. rewrite !process_command_entered, Hs, Hp, Hp'.
    reflexivity. }
  split; [|exact Hiff].
  destruct (process_command_bool m w) as [[|] Hb],
           (process_command_bool m' w') as [[|] Hb'];
    rewrite Hb, Hb'; try reflexivity; exfalso.
  - apply process_command_true in Hb as (name & args & Hb).
    apply Hiff in Hb.
    assert (fst (process_command m' w') = Ok true)
      by (apply process_command_true; eauto).
    congruence.
  - apply process_command_true in Hb' as (name & args & Hb').
    apply Hiff in Hb'.
    assert (fst (process_command m w) = Ok true)
      by (apply process_command_true; eauto).
    congruence.
Qed.

Lemma command_ignores_surrounding_space_witness :
  fst (process_command
         (mkMessage "+15550101" "G1" "#lovebot   help me  " 0 None) nothing_yet) =
  fst (process_command
         (mkMessage "+15550101" "G1" "#lovebothelp me" 0 None) nothing_yet).
Proof.
  refine (proj1 (command_ignores_surrounding_space
                   (mkMessage "+15550101" "G1" "#lovebot   help me  " 0 None)
                   (mkMessage "+15550101" "G1" "#lovebothelp me" 0 None)
                   nothing_yet nothing_yet "   " "help me" "  " _ _
                   eq_refl eq_refl));
    repeat constructor.
Defined.

End CommandLine.

(** ** The webhook receiver of the test tool *)

Section TestTool.

Import PyMore TestWhatsApp Scenario Calls.















End TestTool.

(** ** Edges of the payload and of the score *)

Section Edges.

Import Scenario.

(** X16. The payload is read in the order sender, body, clock, and the
    first thing missing decides: without 'from' [handle_message] raises
    KeyError for 'from', with it but without 'body' KeyError for 'body',
    and with both but the name [datetime] unbound NameError; in each
    case before anything is stored, called or logged. *)
Theorem payload_is_read_in_order (e : env) (d : gmap string string)
    (w : world) :
  (d !! "from" = None ->
   handle_message e d w = (Raised (KeyError "from"), w))
  /\ (is_Some (d !! "from") -> d !! "body" = None ->
      handle_message e d w = (Raised (KeyError "body"), w))
  /\ (is_Some (d !! "from") -> is_Some (d !! "body") ->
      datetime_now e = None ->
      handle_message e d w = (Raised (NameError "datetime"), w)).
Proof.
  split; [|split].
  - intros Hf. apply handle_message_not_built.
    unfold build_message, bind, subscript. now rewrite Hf.
  - intros [f Hf] Hb. apply handle_message_not_built.
    unfold build_message, bind, subscript. now rewrite Hf, Hb.
  - intros [f Hf] [b Hb] Ht. apply handle_message_not_built.
    now apply (build_message_unbound e d w f b).
Qed.

Lemma payload_is_read_in_order_witness :
  handle_message healthy {["body" := "hello"]} three_stored =
    (Raised (Exn "KeyError" "'from'"), three_stored)
  /\ handle_message healthy {["from" := "+15550101"]} three_stored =
    (Raised (Exn "KeyError" "'body'"), three_stored)
  /\ handle_message as_it_stands (alone "+15550101" "hello") three_stored =
    (Raised (Exn "NameError" "name 'datetime' is not defined"), three_stored).
Proof.
  split; [|split].
  - apply (proj1 (payload_is_read_in_order healthy _ three_stored)).
    reflexivity.
  - apply (proj1 (proj2 (payload_is_read_in_order healthy _ three_stored)));
      [now eexists | reflexivity].
  - apply (proj2 (proj2 (payload_is_read_in_order as_it_stands _ three_stored)));
      [now eexists | now eexists | reflexivity].
Defined.

Lemma SFeqb_finite_refl (s : bool) (m : positive) (ex : Z) :
  SFeqb (S754_finite s m ex) (S754_finite s m ex) = true.
Proof.
  unfold SFeqb, SFcompare. rewrite Z.compare_refl, Pos.compare_cont_refl.
  now destruct s.
Qed.

(** X17. A score that is not a number, or that is zero or more, never
    gets a response: only a score that compares strictly under -0.7
    does, and nothing checks that the score lies between -1 and 1. *)
Theorem no_response_without_a_low_score (p : ProcessedMessage) :
  (score (sentiment p) =? score (sentiment p))%float = false
  \/ (0 <=? score (sentiment p))%float = true ->
  should_respond p = false.
Proof.
  rewrite should_respond_score.
  rewrite FloatAxioms.eqb_spec, FloatAxioms.leb_spec, FloatAxioms.ltb_spec.
  replace (Prim2SF (-0.7)) with (S754_finite true 6305039478318694 (-53))
    by (vm_compute; reflexivity).
  replace (Prim2SF 0) with (S754_zero false) by (vm_compute; reflexivity).
  destruct (Prim2SF (score (sentiment p))) as [[]|[]| |sx mx ex].
  all: try (cbn [SFeqb SFleb SFltb SFcompare]; reflexivity).
  all: try (cbn [SFeqb SFleb SFltb SFcompare]; intros [H|H]; discriminate).
  rewrite SFeqb_finite_refl. destruct sx.
  - cbn [SFleb SFcompare]. intros [H|H]; discriminate.
  - intros _. reflexivity.
Qed.

Lemma no_response_without_a_low_score_witness :
  should_respond
    (mkProcessedMessage (mkMessage "+15550101" "G1" "fine" 0 None)
       no_entities (mkSentimentResult nan 0 false false false) []) = false
  /\ should_respond
    (mkProcessedMessage (mkMessage "+15550101" "G1" "fine" 0 None)
       no_entities (mkSentimentResult 0.4 0.4 true false false) []) = false.
Proof.
  split; apply no_response_without_a_low_score; [left | right]; reflexivity.
Defined.

End Edges.
